(** * MatBottomSheetRef: dismissal and disposal of a bottom sheet

    Shallow embedding of [src/material/bottom-sheet/bottom-sheet-ref.ts].

    The class wires four subscriptions in its constructor and one more in
    every [dismiss] call.  Everything it does is a reaction to a notification
    that a collaborator delivers (the container's animation events, the
    overlay's detachments, backdrop clicks and keydowns, a timer that
    elapses) or to a call of its public interface.  The embedding is
    therefore a step function over an explicit state: one step per delivered
    notification or call, returning the new state and the operations the
    class performed, in program order.

    The collaborators are open: a call made on one of them ([exit()],
    [dispose()], [detachBackdrop()]) is recorded, and whatever the
    collaborator does in response reaches the instance as a later event.
    In every handler such a call is the last statement, so nothing of the
    handler runs after it. *)

From Stdlib Require Import List Bool Arith NArith String Lia.
Import ListNotations.

Local Open Scope string_scope.
Local Open Scope list_scope.

(** ** Events consumed from the collaborators *)

(** Modelled from the spec: the type of the events emitted by
    [containerInstance._animationStateChanged] is declared outside the
    sources.  The fields are the three the class reads; [phaseName] and
    [toState] are compared with string literals, [totalTime] is a number of
    milliseconds. *)
Record AnimationEvent : Type := mkAnimationEvent {
  phaseName : string;
  toState : string;
  totalTime : N
}.

(** Modelled from the spec: the part of a DOM [KeyboardEvent] that the
    class and [hasModifierKey] read. *)
Record KeyboardEvent : Type := mkKeyboardEvent {
  keyCode : N;
  altKey : bool;
  shiftKey : bool;
  ctrlKey : bool;
  metaKey : bool
}.

(** Modelled from the spec: [ESCAPE] of [@angular/cdk/keycodes] is not part
    of the sources; it is the key code of the Escape key.  No result depends
    on its value. *)
Definition ESCAPE : N := 27%N.

(** Modelled from the spec: [hasModifierKey] of [@angular/cdk/keycodes] is
    not part of the sources; called with the event alone it tells whether a
    modifier key is held. *)
Definition hasModifierKey (k : KeyboardEvent) : bool :=
  altKey k || shiftKey k || ctrlKey k || metaKey k.

(** An element of [merge(backdropClick(), keydownEvents())]: a mouse event
    from the backdrop or a keyboard event targeted on the overlay.  The
    handler never reads the modifier keys of a mouse event: [||] does not
    evaluate [hasModifierKey] when [event.type] is not ["keydown"]. *)
Inductive DomEvent : Type :=
| MouseClick
| KeyDown (k : KeyboardEvent).

(** [event.type] *)
Definition event_type (d : DomEvent) : string :=
  match d with
  | MouseClick => "click"
  | KeyDown _ => "keydown"
  end.

(** JavaScript truthiness of a [boolean | undefined]. *)
Definition truthy (b : option bool) : bool :=
  match b with
  | Some true => true
  | _ => false
  end.

(** Events of an ordinary session, used in the examples: the enter and the
    exit animation of [t] ms, and the Escape key with and without Shift. *)
Definition enter_start (t : N) : AnimationEvent :=
  mkAnimationEvent "start" "visible" t.
Definition enter_done (t : N) : AnimationEvent :=
  mkAnimationEvent "done" "visible" t.
Definition exit_start (t : N) : AnimationEvent :=
  mkAnimationEvent "start" "hidden" t.
Definition exit_done (t : N) : AnimationEvent :=
  mkAnimationEvent "done" "hidden" t.
Definition escape_key : KeyboardEvent :=
  mkKeyboardEvent ESCAPE false false false false.
Definition shift_escape_key : KeyboardEvent :=
  mkKeyboardEvent ESCAPE false true false false.

Section BottomSheetRef.

(** The type [R] of the result passed back to the opener. *)
Context {R : Type}.

(** The [Subject] class of rxjs is not part of the sources.  The one thing
    [dismiss] reads from it is the [closed] flag of [_afterDismissed]; whether
    [complete()] sets that flag is left as a parameter of the development. *)
Variable closed_after_complete : bool.

(** ** Operations performed by the class, in program order *)
Inductive Op : Type :=
| OpOpenedNext                        (* _afterOpened.next() *)
| OpOpenedComplete                    (* _afterOpened.complete() *)
| OpDismissedNext (v : option R)      (* _afterDismissed.next(_result) *)
| OpDismissedComplete                 (* _afterDismissed.complete() *)
| OpClearTimeout (h : option nat)     (* clearTimeout(_closeFallbackTimeout) *)
| OpSetTimeout (h : nat) (delay : N)  (* setTimeout(() => dispose(), delay) *)
| OpDispose                           (* _overlayRef.dispose() *)
| OpDetachBackdrop                    (* _overlayRef.detachBackdrop() *)
| OpPreventDefault                    (* event.preventDefault() *)
| OpSubscribeStart                    (* the subscription made by dismiss *)
| OpStoreResult (v : option R)        (* this._result = result *)
| OpExit.                             (* containerInstance.exit() *)

(** ** State *)

(** The fields of the instance, the subscriptions it holds, and the timers of
    the event loop.  A [take(1)] subscription is a flag that is cleared when
    its handler has run; [dismiss] adds one subscription per call, all with
    the same handler, so those are counted. *)
Record State : Type := mkState {
  disableClose : option bool;
  _result : option R;
  _closeFallbackTimeout : option nat;
  afterDismissed_closed : bool;       (* _afterDismissed.closed *)
  sub_opened : bool;                  (* done/visible, take(1) *)
  sub_hidden : bool;                  (* done/hidden, take(1) *)
  sub_detach : bool;                  (* detachments(), take(1) *)
  sub_start : nat;                    (* start, take(1), one per dismiss *)
  clock : N;                          (* current time, ms *)
  timers : list (nat * N);            (* pending timers: handle, deadline *)
  next_handle : nat
}.

Definition set_disableClose (v : option bool) (s : State) : State :=
  mkState v (_result s) (_closeFallbackTimeout s) (afterDismissed_closed s)
    (sub_opened s) (sub_hidden s) (sub_detach s) (sub_start s)
    (clock s) (timers s) (next_handle s).

Definition set_result (v : option R) (s : State) : State :=
  mkState (disableClose s) v (_closeFallbackTimeout s) (afterDismissed_closed s)
    (sub_opened s) (sub_hidden s) (sub_detach s) (sub_start s)
    (clock s) (timers s) (next_handle s).

Definition set_closeFallbackTimeout (h : option nat) (s : State) : State :=
  mkState (disableClose s) (_result s) h (afterDismissed_closed s)
    (sub_opened s) (sub_hidden s) (sub_detach s) (sub_start s)
    (clock s) (timers s) (next_handle s).

Definition set_afterDismissed_closed (b : bool) (s : State) : State :=
  mkState (disableClose s) (_result s) (_closeFallbackTimeout s) b
    (sub_opened s) (sub_hidden s) (sub_detach s) (sub_start s)
    (clock s) (timers s) (next_handle s).

Definition set_sub_opened (b : bool) (s : State) : State :=
  mkState (disableClose s) (_result s) (_closeFallbackTimeout s)
    (afterDismissed_closed s) b (sub_hidden s) (sub_detach s) (sub_start s)
    (clock s) (timers s) (next_handle s).

Definition set_sub_hidden (b : bool) (s : State) : State :=
  mkState (disableClose s) (_result s) (_closeFallbackTimeout s)
    (afterDismissed_closed s) (sub_opened s) b (sub_detach s) (sub_start s)
    (clock s) (timers s) (next_handle s).

Definition set_sub_detach (b : bool) (s : State) : State :=
  mkState (disableClose s) (_result s) (_closeFallbackTimeout s)
    (afterDismissed_closed s) (sub_opened s) (sub_hidden s) b (sub_start s)
    (clock s) (timers s) (next_handle s).

Definition set_sub_start (n : nat) (s : State) : State :=
  mkState (disableClose s) (_result s) (_closeFallbackTimeout s)
    (afterDismissed_closed s) (sub_opened s) (sub_hidden s) (sub_detach s) n
    (clock s) (timers s) (next_handle s).

Definition set_clock (t : N) (s : State) : State :=
  mkState (disableClose s) (_result s) (_closeFallbackTimeout s)
    (afterDismissed_closed s) (sub_opened s) (sub_hidden s) (sub_detach s)
    (sub_start s) t (timers s) (next_handle s).

Definition set_timers (l : list (nat * N)) (s : State) : State :=
  mkState (disableClose s) (_result s) (_closeFallbackTimeout s)
    (afterDismissed_closed s) (sub_opened s) (sub_hidden s) (sub_detach s)
    (sub_start s) (clock s) l (next_handle s).

Definition set_next_handle (n : nat) (s : State) : State :=
  mkState (disableClose s) (_result s) (_closeFallbackTimeout s)
    (afterDismissed_closed s) (sub_opened s) (sub_hidden s) (sub_detach s)
    (sub_start s) (clock s) (timers s) n.

(** ** Timers of the event loop *)

(** [setTimeout(cb, delay)]: a fresh handle, due [delay] ms from now.  Every
    timer this class arms has the same callback, [_overlayRef.dispose()]. *)
Definition setTimeout (delay : N) (s : State) : nat * State :=
  let h := next_handle s in
  (h, set_next_handle (S h)
        (set_timers (timers s ++ [(h, (clock s + delay)%N)]) s)).

Definition is_handle (h : option nat) (p : nat * N) : bool :=
  match h with
  | Some n => Nat.eqb n (fst p)
  | None => false
  end.

(** [clearTimeout(h)]: the timer with that handle, if still pending, is
    cancelled; [clearTimeout(undefined)] does nothing. *)
Definition clearTimeout (h : option nat) (s : State) : State :=
  set_timers (filter (fun p => negb (is_handle h p)) (timers s)) s.

Definition due (t : N) (p : nat * N) : bool := (snd p <=? t)%N.

(** The clock advances by [dt] ms: every pending timer whose deadline has
    been reached runs its callback and is removed. *)
Definition elapse (dt : N) (s : State) : State * list Op :=
  let t := (clock s + dt)%N in
  (set_clock t (set_timers (filter (fun p => negb (due t p)) (timers s)) s),
   map (fun _ => OpDispose) (filter (due t) (timers s))).

(** ** The subscriptions of the constructor *)

(** Lines 48-56: the first done/visible event emits on [_afterOpened] and
    completes it. *)
Definition on_opened (e : AnimationEvent) (s : State) : State * list Op :=
  if sub_opened s && ((phaseName e =? "done") && (toState e =? "visible"))
  then (set_sub_opened false s, [OpOpenedNext; OpOpenedComplete])
  else (s, []).

(** Lines 59-67: the first done/hidden event clears the fallback timeout and
    disposes of the overlay. *)
Definition on_hidden (e : AnimationEvent) (s : State) : State * list Op :=
  if sub_hidden s && ((phaseName e =? "done") && (toState e =? "hidden"))
  then (set_sub_hidden false (clearTimeout (_closeFallbackTimeout s) s),
        [OpClearTimeout (_closeFallbackTimeout s); OpDispose])
  else (s, []).

(** Lines 69-75: the first detachment emits [_result] on [_afterDismissed]
    and completes it. *)
Definition on_detach (s : State) : State * list Op :=
  if sub_detach s
  then (set_sub_detach false
          (set_afterDismissed_closed
             (afterDismissed_closed s || closed_after_complete) s),
        [OpDismissedNext (_result s); OpDismissedComplete])
  else (s, []).

(** ** dismiss *)

(** Lines 103-114, the handler of one subscription made by [dismiss]: arm the
    fallback timeout, keep its handle, detach the backdrop. *)
Definition start_handler (e : AnimationEvent) (s : State) : State * list Op :=
  let '(h, s1) := setTimeout (totalTime e + 100)%N s in
  (set_closeFallbackTimeout (Some h) s1,
   [OpSetTimeout h (totalTime e + 100)%N; OpDetachBackdrop]).

(** The handlers of [n] such subscriptions, run in subscription order. *)
Fixpoint start_handlers (n : nat) (e : AnimationEvent) (s : State)
  : State * list Op :=
  match n with
  | O => (s, [])
  | S n' =>
      let '(s1, o1) := start_handler e s in
      let '(s2, o2) := start_handlers n' e s1 in
      (s2, o1 ++ o2)
  end.

(** Lines 98-102: every subscription made by [dismiss] takes the first event
    whose [phaseName] is ["start"]. *)
Definition on_start (e : AnimationEvent) (s : State) : State * list Op :=
  if phaseName e =? "start"
  then let '(s1, o) := start_handlers (sub_start s) e s in
       (set_sub_start 0 s1, o)
  else (s, []).

(** Lines 95-119. *)
Definition dismiss (result : option R) (s : State) : State * list Op :=
  if negb (afterDismissed_closed s)
  then (set_result result (set_sub_start (S (sub_start s)) s),
        [OpSubscribeStart; OpStoreResult result; OpExit])
  else (s, []).

(** Lines 77-88: the merged stream of backdrop clicks and Escape keydowns. *)
Definition passes_escape_filter (d : DomEvent) : bool :=
  match d with
  | MouseClick => true
  | KeyDown k => (keyCode k =? ESCAPE)%N
  end.

Definition on_dom (d : DomEvent) (s : State) : State * list Op :=
  if passes_escape_filter d
  then
    if negb (truthy (disableClose s)) &&
       (negb (event_type d =? "keydown") ||
        negb (match d with KeyDown k => hasModifierKey k | MouseClick => false end))
    then let '(s1, o) := dismiss None s in (s1, OpPreventDefault :: o)
    else (s, [])
  else (s, []).

(** ** Construction and the step function *)

(** Lines 43-89: [disableClose] is copied from the container's configuration;
    the three [take(1)] subscriptions are active, [dismiss] has made none. *)
Definition construct (config_disableClose : option bool) : State :=
  mkState config_disableClose None None false true true true 0 0%N [] 1.

(** What the environment can do to an instance. *)
Inductive Event : Type :=
| EvAnimation (e : AnimationEvent)     (* _animationStateChanged emits *)
| EvDetach                             (* detachments() emits *)
| EvDom (d : DomEvent)                 (* backdropClick()/keydownEvents() emit *)
| EvDismiss (result : option R)        (* a caller invokes dismiss(result) *)
| EvSetDisableClose (v : option bool)  (* a caller assigns disableClose *)
| EvElapse (dt : N).                   (* dt ms pass *)

(** An animation event reaches the subscribers in subscription order. *)
Definition on_animation (e : AnimationEvent) (s : State) : State * list Op :=
  let '(s1, o1) := on_opened e s in
  let '(s2, o2) := on_hidden e s1 in
  let '(s3, o3) := on_start e s2 in
  (s3, o1 ++ o2 ++ o3).

Definition step (s : State) (ev : Event) : State * list Op :=
  match ev with
  | EvAnimation e => on_animation e s
  | EvDetach => on_detach s
  | EvDom d => on_dom d s
  | EvDismiss r => dismiss r s
  | EvSetDisableClose v => (set_disableClose v s, [])
  | EvElapse dt => elapse dt s
  end.

Fixpoint run (s : State) (tr : list Event) : State * list Op :=
  match tr with
  | [] => (s, [])
  | ev :: tr' =>
      let '(s1, o1) := step s ev in
      let '(s2, o2) := run s1 tr' in
      (s2, o1 ++ o2)
  end.

Definition final (s : State) (tr : list Event) : State := fst (run s tr).
Definition ops (s : State) (tr : list Event) : list Op := snd (run s tr).

(** ** Vocabulary of the properties *)

Definition is_start (ev : Event) : bool :=
  match ev with
  | EvAnimation e => phaseName e =? "start"
  | _ => false
  end.

Definition is_done_visible (ev : Event) : bool :=
  match ev with
  | EvAnimation e => (phaseName e =? "done") && (toState e =? "visible")
  | _ => false
  end.

Definition is_done_hidden (ev : Event) : bool :=
  match ev with
  | EvAnimation e => (phaseName e =? "done") && (toState e =? "hidden")
  | _ => false
  end.

Definition is_detach (ev : Event) : bool :=
  match ev with
  | EvDetach => true
  | _ => false
  end.

Definition is_animation (ev : Event) : bool :=
  match ev with
  | EvAnimation _ => true
  | _ => false
  end.

(** Events that read or assign [disableClose]. *)
Definition touches_disableClose (ev : Event) : bool :=
  match ev with
  | EvDom _ | EvSetDisableClose _ => true
  | _ => false
  end.

(** Traces in which no event of a kind occurs. *)
Definition no_start (tr : list Event) : bool :=
  forallb (fun ev => negb (is_start ev)) tr.
Definition no_done_hidden (tr : list Event) : bool :=
  forallb (fun ev => negb (is_done_hidden ev)) tr.
Definition no_detach (tr : list Event) : bool :=
  forallb (fun ev => negb (is_detach ev)) tr.

(** Time that passes during a trace. *)
Fixpoint elapsed (tr : list Event) : N :=
  match tr with
  | [] => 0%N
  | EvElapse dt :: tr' => (dt + elapsed tr')%N
  | _ :: tr' => elapsed tr'
  end.

Definition is_dispose (o : Op) : bool :=
  match o with OpDispose => true | _ => false end.
Definition is_set_timeout (o : Op) : bool :=
  match o with OpSetTimeout _ _ => true | _ => false end.
Definition is_detach_backdrop (o : Op) : bool :=
  match o with OpDetachBackdrop => true | _ => false end.
Definition is_exit (o : Op) : bool :=
  match o with OpExit => true | _ => false end.
Definition is_prevent_default (o : Op) : bool :=
  match o with OpPreventDefault => true | _ => false end.
Definition is_opened_next (o : Op) : bool :=
  match o with OpOpenedNext => true | _ => false end.
Definition is_dismissed_next (o : Op) : bool :=
  match o with OpDismissedNext _ => true | _ => false end.
Definition is_store_result (o : Op) : bool :=
  match o with OpStoreResult _ => true | _ => false end.

(** Number of operations of a kind in a log. *)
Definition count (p : Op -> bool) (l : list Op) : nat := List.length (filter p l).

(** Closing by the user is allowed: [!this.disableClose].  The field of the
    code has the opposite polarity of this permission. *)
Definition closeAllowed (s : State) : bool := negb (truthy (disableClose s)).

(** A backdrop click, or an Escape keydown with no modifier key held. *)
Definition close_request (d : DomEvent) : bool :=
  match d with
  | MouseClick => true
  | KeyDown k => (keyCode k =? ESCAPE)%N && negb (hasModifierKey k)
  end.

(** The argument of the [dismiss] call an event makes, if it makes one: a
    call by the opener, or the call without argument of the backdrop/keydown
    handler when its condition holds (see [on_dom_eq]). *)
Definition invoked (s : State) (ev : Event) : option (option R) :=
  match ev with
  | EvDismiss r => Some r
  | EvDom d => if close_request d && closeAllowed s then Some None else None
  | _ => None
  end.

(** The arguments of the [dismiss] calls made during a run, oldest first. *)
Fixpoint dismiss_calls (s : State) (tr : list Event) : list (option R) :=
  match tr with
  | [] => []
  | ev :: tr' =>
      match invoked s ev with
      | Some r => r :: dismiss_calls (fst (step s ev)) tr'
      | None => dismiss_calls (fst (step s ev)) tr'
      end
  end.

(** The timers and operations of [n] start handlers run at time [t] with
    first free handle [h]. *)
Definition new_timers (h n : nat) (deadline : N) : list (nat * N) :=
  map (fun k => (k, deadline)) (seq h n).

Definition arm_ops (h n : nat) (delay : N) : list Op :=
  flat_map (fun k => [OpSetTimeout k delay; OpDetachBackdrop]) (seq h n).

Definition is_subscribe_start (o : Op) : bool :=
  match o with OpSubscribeStart => true | _ => false end.

(** A timer armed with a delay of at least 100 ms. *)
Definition delay_at_least_100 (o : Op) : bool :=
  match o with
  | OpSetTimeout _ d => (100 <=? d)%N
  | _ => true
  end.

(** The value of [disableClose] after the assignments of a trace. *)
Fixpoint last_assigned (init : option bool) (tr : list Event) : option bool :=
  match tr with
  | [] => init
  | EvSetDisableClose v :: tr' => last_assigned v tr'
  | _ :: tr' => last_assigned init tr'
  end.

(** Animation events none of the three filters lets through. *)
Definition unmatched_animation (e : AnimationEvent) : bool :=
  negb (phaseName e =? "start") &&
  negb ((phaseName e =? "done") &&
        ((toState e =? "visible") || (toState e =? "hidden"))).

(** Keydowns the handler does not act on whatever [disableClose] holds: a
    key other than Escape, or Escape with a modifier key held. *)
Definition inert_key (k : KeyboardEvent) : bool :=
  negb (keyCode k =? ESCAPE)%N || hasModifierKey k.

(** The handles of the pending timers. *)
Definition handles (s : State) : list nat := map fst (timers s).

(** ** Basic facts *)

Lemma run_app (s : State) (a b : list Event) :
  run s (a ++ b) =
  (fst (run (fst (run s a)) b), snd (run s a) ++ snd (run (fst (run s a)) b)).
Proof.
  revert s; induction a as [|ev a IH]; intros s; simpl.
  - destruct (run s b); reflexivity.
  - destruct (step s ev) as [s1 o1]. rewrite IH.
    destruct (run s1 a) as [s2 o2]; simpl.
    now rewrite app_assoc.
Qed.

Lemma final_app (s : State) (a b : list Event) :
  final s (a ++ b) = final (final s a) b.
Proof. unfold final; now rewrite run_app. Qed.

Lemma ops_app (s : State) (a b : list Event) :
  ops s (a ++ b) = ops s a ++ ops (final s a) b.
Proof. unfold ops, final; now rewrite run_app. Qed.

Lemma final_cons (s : State) (ev : Event) (tr : list Event) :
  final s (ev :: tr) = final (fst (step s ev)) tr.
Proof.
  unfold final; simpl. destruct (step s ev) as [s1 o1]; simpl.
  now destruct (run s1 tr).
Qed.

Lemma ops_cons (s : State) (ev : Event) (tr : list Event) :
  ops s (ev :: tr) = snd (step s ev) ++ ops (fst (step s ev)) tr.
Proof.
  unfold ops; simpl. destruct (step s ev) as [s1 o1]; simpl.
  now destruct (run s1 tr).
Qed.

Lemma final_nil (s : State) : final s [] = s.
Proof. reflexivity. Qed.

Lemma ops_nil (s : State) : ops s [] = [].
Proof. reflexivity. Qed.

Lemma count_app (p : Op -> bool) (a b : list Op) :
  count p (a ++ b) = count p a + count p b.
Proof. unfold count; now rewrite filter_app, List.length_app. Qed.

Lemma start_handlers_eq (n : nat) (e : AnimationEvent) (s : State) :
  start_handlers n e s =
  (mkState (disableClose s) (_result s)
     (match n with
      | O => _closeFallbackTimeout s
      | S k => Some (next_handle s + k)
      end)
     (afterDismissed_closed s) (sub_opened s) (sub_hidden s) (sub_detach s)
     (sub_start s) (clock s)
     (timers s ++ new_timers (next_handle s) n (clock s + (totalTime e + 100))%N)
     (next_handle s + n),
   arm_ops (next_handle s) n (totalTime e + 100)%N).
Proof.
  revert s; induction n as [|n IH]; intros s.
  - destruct s; simpl. unfold new_timers, arm_ops; simpl.
    now rewrite app_nil_r, Nat.add_0_r.
  - cbn [start_handlers]. unfold start_handler, setTimeout.
    rewrite IH. destruct s; simpl. unfold new_timers, arm_ops; simpl.
    rewrite <- app_assoc; simpl.
    f_equal. f_equal; try lia.
    destruct n; f_equal; lia.
Qed.

Lemma count_const_other {A : Type} (p : Op -> bool) (l : list A) :
  p OpDispose = false -> count p (map (fun _ => OpDispose) l) = 0.
Proof. intros H; unfold count; induction l; simpl; auto. now rewrite H. Qed.

Lemma count_arm_ops (p : Op -> bool) (h n : nat) (d : N) :
  (forall k, p (OpSetTimeout k d) = false) -> p OpDetachBackdrop = false ->
  count p (arm_ops h n d) = 0.
Proof.
  intros H1 H2. unfold arm_ops, count.
  revert h; induction n as [|n IH]; intros h; simpl; auto.
  rewrite H1, H2. apply IH.
Qed.

Lemma on_dom_eq (d : DomEvent) (s : State) :
  on_dom d s =
  if close_request d && closeAllowed s
  then (fst (dismiss None s), OpPreventDefault :: snd (dismiss None s))
  else (s, []).
Proof.
  unfold on_dom, close_request, closeAllowed, passes_escape_filter.
  destruct d as [|k]; simpl.
  - destruct (truthy (disableClose s)); simpl; auto.
    now destruct (dismiss None s).
  - destruct (keyCode k =? ESCAPE)%N; simpl; auto.
    destruct (truthy (disableClose s)), (hasModifierKey k); simpl; auto.
    now destruct (dismiss None s).
Qed.

Lemma on_start_eq (e : AnimationEvent) (s : State) :
  on_start e s =
  if phaseName e =? "start"
  then (set_sub_start 0 (fst (start_handlers (sub_start s) e s)),
        arm_ops (next_handle s) (sub_start s) (totalTime e + 100)%N)
  else (s, []).
Proof.
  unfold on_start. destruct (phaseName e =? "start"); auto.
  now rewrite start_handlers_eq.
Qed.

Lemma on_animation_eq (e : AnimationEvent) (s : State) :
  on_animation e s =
  (fst (on_start e (fst (on_hidden e (fst (on_opened e s))))),
   snd (on_opened e s) ++
   snd (on_hidden e (fst (on_opened e s))) ++
   snd (on_start e (fst (on_hidden e (fst (on_opened e s)))))).
Proof.
  unfold on_animation.
  destruct (on_opened e s) as [s1 o1]; simpl.
  destruct (on_hidden e s1) as [s2 o2]; simpl.
  now destruct (on_start e s2) as [s3 o3].
Qed.

(** Steps that neither read nor assign [disableClose] commute with an
    assignment to it. *)
Lemma step_set_disableClose (v : option bool) (s : State) (ev : Event) :
  touches_disableClose ev = false ->
  step (set_disableClose v s) ev =
  (set_disableClose v (fst (step s ev)), snd (step s ev)).
Proof.
  destruct ev as [e| |d|r|w|dt]; cbn [step touches_disableClose];
    try discriminate; intros _.
  - rewrite !on_animation_eq, !on_start_eq.
    unfold on_opened, on_hidden. rewrite !start_handlers_eq.
    destruct s as [dc res h cl so sh sd ss ck tm nh]; simpl.
    destruct so, sh, (phaseName e =? "done"),
      (toState e =? "visible"), (toState e =? "hidden"),
      (phaseName e =? "start"); simpl; rewrite ?start_handlers_eq; reflexivity.
  - unfold on_detach. destruct s as [dc res h cl so sh sd ss ck tm nh]; simpl.
    now destruct sd.
  - unfold dismiss. destruct s as [dc res h cl so sh sd ss ck tm nh]; simpl.
    now destruct cl.
  - unfold elapse. destruct s; reflexivity.
Qed.

Lemma run_set_disableClose (v : option bool) (tr : list Event) (s : State) :
  forallb (fun ev => negb (touches_disableClose ev)) tr = true ->
  run (set_disableClose v s) tr =
  (set_disableClose v (final s tr), ops s tr).
Proof.
  revert s; induction tr as [|ev tr IH]; intros s H.
  - reflexivity.
  - simpl in H. apply andb_true_iff in H as [Hev Htr].
    apply negb_true_iff in Hev.
    rewrite final_cons, ops_cons. simpl.
    rewrite (step_set_disableClose v s ev Hev).
    rewrite (IH _ Htr). reflexivity.
Qed.

(** ** One step, field by field *)

Lemma done_not_start (p : string) :
  (p =? "done") = true -> (p =? "start") = false.
Proof. intros H; apply String.eqb_eq in H; now subst. Qed.

Lemma visible_not_hidden (p : string) :
  (p =? "visible") = true -> (p =? "hidden") = false.
Proof. intros H; apply String.eqb_eq in H; now subst. Qed.

Ltac destruct_state s :=
  destruct s as [dc res fh cl so sh sd ss ck tm nh]; cbn [disableClose _result
    _closeFallbackTimeout afterDismissed_closed sub_opened sub_hidden
    sub_detach sub_start clock timers next_handle] in *.

(** Case analysis on the two fields of an animation event that the filters
    read; the combinations no string satisfies are discarded. *)
Ltac animation_cases e :=
  let Hd := fresh "Hdone" in
  let Hs := fresh "Hstart" in
  let Hv := fresh "Hvisible" in
  let Hh := fresh "Hhidden" in
  destruct (phaseName e =? "done") eqn:Hd;
  [ rewrite (done_not_start _ Hd) in * | destruct (phaseName e =? "start") eqn:Hs ];
  (destruct (toState e =? "visible") eqn:Hv;
   [ rewrite (visible_not_hidden _ Hv) in * | destruct (toState e =? "hidden") eqn:Hh ]).

Ltac unfold_step :=
  cbn [step] in *;
  rewrite ?on_animation_eq, ?on_start_eq, ?on_dom_eq in *;
  unfold on_opened, on_hidden, on_detach, dismiss, elapse, clearTimeout in *;
  rewrite ?start_handlers_eq in *.

(** The subscription to done/visible and the emissions on [_afterOpened]. *)
Lemma step_opened (s : State) (ev : Event) :
  sub_opened (fst (step s ev)) = sub_opened s && negb (is_done_visible ev) /\
  count is_opened_next (snd (step s ev)) =
    (if sub_opened s && is_done_visible ev then 1 else 0) /\
  (sub_opened s && is_done_visible ev = true ->
   snd (step s ev) = [OpOpenedNext; OpOpenedComplete]).
Proof.
  destruct ev as [e| |d|r|w|dt]; unfold_step; cbn [is_done_visible].
  - destruct_state s. animation_cases e; destruct so, sh; simpl;
      rewrite ?start_handlers_eq; simpl; unfold count;
      rewrite ?app_nil_r; repeat split; try discriminate; auto;
      apply (count_arm_ops is_opened_next); reflexivity.
  - destruct_state s. destruct so, sd; simpl; repeat split; auto; discriminate.
  - destruct_state s.
    destruct (close_request d && closeAllowed _), cl, so; simpl;
      repeat split; auto; discriminate.
  - destruct_state s. destruct cl, so; simpl; repeat split; auto; discriminate.
  - destruct_state s. destruct so; simpl; repeat split; auto; discriminate.
  - destruct_state s. simpl. rewrite andb_false_r.
    repeat split; try discriminate; [now rewrite andb_true_r|].
    now apply count_const_other.
Qed.

(** The subscription to the detachments, the flag [closed] and the emissions
    on [_afterDismissed]. *)
Lemma step_detach (s : State) (ev : Event) :
  sub_detach (fst (step s ev)) = sub_detach s && negb (is_detach ev) /\
  afterDismissed_closed (fst (step s ev)) =
    (afterDismissed_closed s ||
     (sub_detach s && is_detach ev && closed_after_complete)) /\
  count is_dismissed_next (snd (step s ev)) =
    (if sub_detach s && is_detach ev then 1 else 0) /\
  (sub_detach s && is_detach ev = true ->
   snd (step s ev) = [OpDismissedNext (_result s); OpDismissedComplete]).
Proof.
  destruct ev as [e| |d|r|w|dt]; unfold_step; cbn [is_detach].
  - destruct_state s. animation_cases e; destruct so, sh; simpl;
      rewrite ?start_handlers_eq; simpl; unfold count;
      rewrite ?app_nil_r, ?andb_false_r, ?orb_false_r, ?andb_true_r;
      repeat split; try discriminate; auto;
      apply (count_arm_ops is_dismissed_next); reflexivity.
  - destruct_state s. destruct sd; simpl;
      rewrite ?orb_false_r; repeat split; auto; discriminate.
  - destruct_state s.
    destruct (close_request d && closeAllowed _), cl, sd; simpl;
      repeat split; auto; discriminate.
  - destruct_state s. destruct cl, sd; simpl; repeat split; auto; discriminate.
  - destruct_state s. destruct sd, cl; simpl; repeat split; auto; discriminate.
  - destruct_state s. simpl. rewrite !andb_false_r, orb_false_r, andb_true_r.
    repeat split; try discriminate.
    now apply count_const_other.
Qed.

(** ** Runs: the two notification streams *)

Lemma run_opened (tr : list Event) (s : State) :
  sub_opened (final s tr) = sub_opened s && negb (existsb is_done_visible tr) /\
  count is_opened_next (ops s tr) =
    (if sub_opened s && existsb is_done_visible tr then 1 else 0).
Proof.
  revert s; induction tr as [|ev tr IH]; intros s.
  - rewrite final_nil, ops_nil; simpl. now rewrite andb_true_r, andb_false_r.
  - rewrite final_cons, ops_cons, count_app.
    destruct (step_opened s ev) as (Hs & Hc & _).
    destruct (IH (fst (step s ev))) as (IHs & IHc).
    rewrite IHs, IHc, Hs, Hc. simpl.
    destruct (sub_opened s), (is_done_visible ev),
      (existsb is_done_visible tr); auto.
Qed.

Lemma run_detach (tr : list Event) (s : State) :
  sub_detach (final s tr) = sub_detach s && negb (existsb is_detach tr) /\
  afterDismissed_closed (final s tr) =
    (afterDismissed_closed s ||
     (sub_detach s && existsb is_detach tr && closed_after_complete)) /\
  count is_dismissed_next (ops s tr) =
    (if sub_detach s && existsb is_detach tr then 1 else 0).
Proof.
  revert s; induction tr as [|ev tr IH]; intros s.
  - rewrite final_nil, ops_nil; simpl.
    now rewrite andb_true_r, !andb_false_r, orb_false_r.
  - rewrite final_cons, ops_cons, count_app.
    destruct (step_detach s ev) as (Hs & Hcl & Hc & _).
    destruct (IH (fst (step s ev))) as (IHs & IHcl & IHc).
    rewrite IHs, IHcl, IHc, Hs, Hcl, Hc. simpl.
    destruct (sub_detach s), (is_detach ev), (existsb is_detach tr),
      (afterDismissed_closed s), closed_after_complete; auto.
Qed.

(** [_result] is assigned by [dismiss] and by nothing else. *)
Lemma step_result (s : State) (ev : Event) :
  _result (fst (step s ev)) =
  match invoked s ev with
  | Some r => if afterDismissed_closed s then _result s else r
  | None => _result s
  end.
Proof.
  destruct ev as [e| |d|r|w|dt]; unfold_step; cbn [invoked].
  - destruct_state s. animation_cases e; destruct so, sh; simpl;
      rewrite ?start_handlers_eq; reflexivity.
  - destruct_state s. now destruct sd.
  - destruct_state s.
    destruct (close_request d && closeAllowed _), cl; reflexivity.
  - destruct_state s. now destruct cl.
  - reflexivity.
  - reflexivity.
Qed.

Lemma last_cons_default {A : Type} (l : list A) (a d : A) :
  last (a :: l) d = last l a.
Proof.
  revert a d; induction l as [|b l IH]; intros a d; [reflexivity|].
  change (last (a :: b :: l) d) with (last (b :: l) d).
  now rewrite (IH b d), (IH b a).
Qed.

(** Until the first detachment the stored result is the argument of the
    latest [dismiss] call. *)
Lemma run_result (tr : list Event) (s : State) :
  afterDismissed_closed s = false ->
  existsb is_detach tr = false ->
  _result (final s tr) = last (dismiss_calls s tr) (_result s).
Proof.
  revert s; induction tr as [|ev tr IH]; intros s Hcl Htr.
  - reflexivity.
  - simpl in Htr. apply orb_false_iff in Htr as [Hev Htr].
    rewrite final_cons. cbn [dismiss_calls].
    destruct (step_detach s ev) as (_ & Hcl' & _).
    rewrite Hcl, Hev, andb_false_r in Hcl'. simpl in Hcl'.
    rewrite (IH _ Hcl' Htr), step_result, Hcl.
    destruct (invoked s ev); [now rewrite last_cons_default | reflexivity].
Qed.

(** C6. [afterOpened()] emits at most once: over a whole run it emits once
    if a done/visible animation event was delivered and never otherwise; the
    step that emits is the delivery of the first done/visible event, and
    that step performs [next()] and then [complete()] and nothing else. *)
Theorem afterOpened_emits_once (cfg : option bool) (tr : list Event) :
  count is_opened_next (ops (construct cfg) tr) =
    (if existsb is_done_visible tr then 1 else 0) /\
  forall pre ev post, tr = pre ++ ev :: post ->
    (count is_opened_next (snd (step (final (construct cfg) pre) ev)) <> 0 ->
     is_done_visible ev = true /\ existsb is_done_visible pre = false) /\
    (is_done_visible ev = true -> existsb is_done_visible pre = false ->
     snd (step (final (construct cfg) pre) ev) =
       [OpOpenedNext; OpOpenedComplete]).
Proof.
  split.
  - now destruct (run_opened tr (construct cfg)) as (_ & ->).
  - intros pre ev post _.
    destruct (run_opened pre (construct cfg)) as (Hs & _).
    destruct (step_opened (final (construct cfg) pre) ev) as (_ & Hc & Ho).
    rewrite Hs in Hc, Ho. simpl in Hc, Ho. split.
    + intros Hne. rewrite Hc in Hne.
      destruct (existsb is_done_visible pre), (is_done_visible ev);
        simpl in Hne; auto; contradiction.
    + intros Hev Hpre. apply Ho. now rewrite Hpre, Hev.
Qed.

(** C4. [afterDismissed()] emits at most once: over a whole run it emits
    once if a detachment was notified and never otherwise; the step that
    emits is the first detachment notification (so never an animation
    event), its payload is the argument of the latest [dismiss] call made
    before it, [undefined] when there was none, and the emission is followed
    by [complete()]. *)
Theorem afterDismissed_emits_result_once (cfg : option bool) (tr : list Event) :
  count is_dismissed_next (ops (construct cfg) tr) =
    (if existsb is_detach tr then 1 else 0) /\
  forall pre ev post, tr = pre ++ ev :: post ->
    (count is_dismissed_next (snd (step (final (construct cfg) pre) ev)) <> 0 ->
     is_detach ev = true /\ is_animation ev = false /\
     existsb is_detach pre = false) /\
    (is_detach ev = true -> existsb is_detach pre = false ->
     snd (step (final (construct cfg) pre) ev) =
       [OpDismissedNext (last (dismiss_calls (construct cfg) pre) None);
        OpDismissedComplete]).
Proof.
  split.
  - now destruct (run_detach tr (construct cfg)) as (_ & _ & ->).
  - intros pre ev post _.
    destruct (run_detach pre (construct cfg)) as (Hs & _ & _).
    destruct (step_detach (final (construct cfg) pre) ev) as (_ & _ & Hc & Ho).
    rewrite Hs in Hc, Ho. simpl in Hc, Ho. split.
    + intros Hne. rewrite Hc in Hne.
      destruct (existsb is_detach pre), ev; simpl in Hne; auto; contradiction.
    + intros Hev Hpre.
      rewrite Ho by now rewrite Hpre, Hev.
      now rewrite (run_result pre (construct cfg) eq_refl Hpre).
Qed.

(** ** dismiss and its callers *)

(** What a step does of the work of [dismiss]: the assignment to [_result],
    the call of [exit()] and the new subscription happen together, once per
    [dismiss] call that finds the subject not closed. *)
Lemma step_dismiss_work (s : State) (ev : Event) :
  let n := match invoked s ev with
           | Some _ => if afterDismissed_closed s then 0 else 1
           | None => 0
           end in
  count is_store_result (snd (step s ev)) = n /\
  count is_exit (snd (step s ev)) = n.
Proof.
  destruct ev as [e| |d|r|w|dt]; unfold_step; cbn [invoked].
  - destruct_state s. animation_cases e; destruct so, sh; simpl;
      rewrite ?start_handlers_eq; simpl; unfold count;
      rewrite ?app_nil_r; split; auto;
      first [ apply (count_arm_ops is_store_result)
            | apply (count_arm_ops is_exit) ]; reflexivity.
  - destruct_state s. destruct sd; split; reflexivity.
  - destruct_state s.
    destruct (close_request d && closeAllowed _), cl; split; reflexivity.
  - destruct_state s. destruct cl; split; reflexivity.
  - split; reflexivity.
  - split; now apply count_const_other.
Qed.

Lemma run_exit_calls (tr : list Event) (s : State) :
  afterDismissed_closed s = false ->
  existsb is_detach tr = false ->
  count is_exit (ops s tr) = List.length (dismiss_calls s tr) /\
  count is_store_result (ops s tr) = List.length (dismiss_calls s tr).
Proof.
  revert s; induction tr as [|ev tr IH]; intros s Hcl Htr.
  - split; reflexivity.
  - simpl in Htr. apply orb_false_iff in Htr as [Hev Htr].
    rewrite ops_cons, !count_app. cbn [dismiss_calls].
    destruct (step_detach s ev) as (_ & Hcl' & _).
    rewrite Hcl, Hev, andb_false_r in Hcl'. simpl in Hcl'.
    destruct (IH _ Hcl' Htr) as (IH1 & IH2).
    destruct (step_dismiss_work s ev) as (H1 & H2).
    rewrite IH1, IH2, H1, H2, Hcl.
    destruct (invoked s ev); split; reflexivity.
Qed.

(** C7. A backdrop click or a modifier-free Escape keydown enters the
    dismiss path (the default behaviour is prevented, then [dismiss] is
    called with no result) exactly when closing is allowed at that moment,
    that is when [disableClose] is not set; when closing is not allowed the
    event is ignored and [exit()] is not called; an Escape keydown with a
    modifier key held is ignored even when closing is allowed. *)
Theorem close_request_dismisses_iff_allowed (s : State) (d : DomEvent) :
  (close_request d = true ->
   (closeAllowed s = true <->
    count is_prevent_default (snd (step s (EvDom d))) <> 0) /\
   (closeAllowed s = true ->
    invoked s (EvDom d) = Some None /\
    step s (EvDom d) =
      (fst (dismiss None s), OpPreventDefault :: snd (dismiss None s))) /\
   (closeAllowed s = false ->
    step s (EvDom d) = (s, []) /\
    count is_exit (snd (step s (EvDom d))) = 0)) /\
  (forall k, d = KeyDown k -> hasModifierKey k = true ->
   step s (EvDom d) = (s, [])).
Proof.
  split.
  - intros Hd. cbn [step invoked]. rewrite on_dom_eq, Hd.
    destruct (closeAllowed s); simpl; repeat split; auto; try discriminate;
      intros H; try discriminate; now contradiction H.
  - intros k -> Hk. cbn [step]. rewrite on_dom_eq. unfold close_request.
    now rewrite Hk, andb_false_r.
Qed.

(** C8. [dismiss] does not read [disableClose]: run from two states that
    differ only in that field, [dismiss(result)] and whatever follows it,
    as long as no backdrop click or keydown is delivered and the field is
    not assigned, perform the same operations (the same [exit()] call, the
    same stored result, the same timers) and end in states that again differ
    only in that field. *)
Theorem dismiss_ignores_disableClose
  (v : option bool) (s : State) (r : option R) (tr : list Event) :
  forallb (fun ev => negb (touches_disableClose ev)) tr = true ->
  dismiss r (set_disableClose v s) =
    (set_disableClose v (fst (dismiss r s)), snd (dismiss r s)) /\
  ops (set_disableClose v s) (EvDismiss r :: tr) = ops s (EvDismiss r :: tr) /\
  final (set_disableClose v s) (EvDismiss r :: tr) =
    set_disableClose v (final s (EvDismiss r :: tr)).
Proof.
  intros Htr.
  assert (H : run (set_disableClose v s) (EvDismiss r :: tr) =
              (set_disableClose v (final s (EvDismiss r :: tr)),
               ops s (EvDismiss r :: tr))).
  { apply run_set_disableClose. simpl. exact Htr. }
  split; [|split].
  - exact (step_set_disableClose v s (EvDismiss r) eq_refl).
  - unfold ops at 1. now rewrite H.
  - unfold final at 1. now rewrite H.
Qed.

(** C10. [disableClose] is initialised with the value of the container's
    configuration, which may be [undefined]; with [undefined] a backdrop
    click or keydown is handled exactly as with [false]: the same operations
    are performed, the resulting states differ in that field only, and a
    backdrop click or modifier-free Escape enters the dismiss path. *)
Theorem disableClose_undefined_allows_close (s : State) (d : DomEvent) :
  (forall cfg, disableClose (construct cfg) = cfg) /\
  snd (step (set_disableClose None s) (EvDom d)) =
    snd (step (set_disableClose (Some false) s) (EvDom d)) /\
  fst (step (set_disableClose None s) (EvDom d)) =
    set_disableClose None
      (fst (step (set_disableClose (Some false) s) (EvDom d))) /\
  (close_request d = true ->
   step (set_disableClose None s) (EvDom d) =
     (fst (dismiss None (set_disableClose None s)),
      OpPreventDefault :: snd (dismiss None (set_disableClose None s)))).
Proof.
  split; [reflexivity|].
  cbn [step]. rewrite !on_dom_eq. unfold closeAllowed, dismiss.
  destruct_state s. simpl.
  destruct (close_request d), cl; simpl; repeat split; auto; discriminate.
Qed.

(** C5 (amended). [_result] is written by [dismiss] and by nothing else: a
    step that calls [dismiss] while the subject is not closed stores the
    argument of the call, whatever was stored before, and does so before it
    calls [exit()]; a step that does not call [dismiss], or calls it when
    the subject is closed, leaves [_result] as it was. *)
Theorem result_written_by_each_dismiss (s : State) (ev : Event) :
  (invoked s ev = None ->
   _result (fst (step s ev)) = _result s /\
   count is_store_result (snd (step s ev)) = 0) /\
  (forall r, invoked s ev = Some r -> afterDismissed_closed s = false ->
   _result (fst (step s ev)) = r /\
   exists before,
     snd (step s ev) = before ++ [OpStoreResult r; OpExit] /\
     count is_store_result before = 0 /\ count is_exit before = 0) /\
  (forall r, invoked s ev = Some r -> afterDismissed_closed s = true ->
   _result (fst (step s ev)) = _result s /\
   count is_store_result (snd (step s ev)) = 0).
Proof.
  pose proof (step_result s ev) as Hres.
  destruct (step_dismiss_work s ev) as (Hst & _).
  split; [|split].
  - intros Hi. rewrite Hi in Hres, Hst. now split.
  - intros r Hi Hcl. rewrite Hi, Hcl in Hres. split; [exact Hres|].
    destruct ev as [e| |d|r'|w|dt]; cbn [invoked] in Hi; try discriminate.
    + destruct (close_request d && closeAllowed s) eqn:Hd; [|discriminate].
      injection Hi as <-. cbn [step]. rewrite on_dom_eq, Hd.
      unfold dismiss. rewrite Hcl. simpl.
      now exists [OpPreventDefault; OpSubscribeStart].
    + injection Hi as ->. cbn [step]. unfold dismiss. rewrite Hcl. simpl.
      now exists [OpSubscribeStart].
  - intros r Hi Hcl. rewrite Hi, Hcl in Hres, Hst. now split.
Qed.

(** C2 (amended). Every [dismiss] call made while [_afterDismissed] is not
    closed does the whole work again: one more subscription to the first
    start event, the result overwritten, one more [exit()] call; so until
    the first detachment a run calls [exit()] as many times as [dismiss] was
    called.  A [dismiss] call made when the subject is closed is a no-op;
    the subject is closed after the first detachment completed it, provided
    [complete()] sets the flag. *)
Theorem dismiss_repeats_until_closed
  (cfg : option bool) (tr : list Event) (r : option R) :
  (existsb is_detach tr = false ->
   count is_exit (ops (construct cfg) tr) =
     List.length (dismiss_calls (construct cfg) tr)) /\
  (existsb is_detach tr && closed_after_complete = false ->
   dismiss r (final (construct cfg) tr) =
     (set_result r
        (set_sub_start (S (sub_start (final (construct cfg) tr)))
           (final (construct cfg) tr)),
      [OpSubscribeStart; OpStoreResult r; OpExit])) /\
  (existsb is_detach tr && closed_after_complete = true ->
   dismiss r (final (construct cfg) tr) = (final (construct cfg) tr, [])).
Proof.
  destruct (run_detach tr (construct cfg)) as (_ & Hcl & _).
  simpl in Hcl.
  split; [|split].
  - intros Htr. now apply run_exit_calls.
  - intros H. unfold dismiss. now rewrite Hcl, H.
  - intros H. unfold dismiss. now rewrite Hcl, H.
Qed.

(** ** Timers and disposal *)

Lemma dismiss_calls_app (a b : list Event) (s : State) :
  dismiss_calls s (a ++ b) = dismiss_calls s a ++ dismiss_calls (final s a) b.
Proof.
  revert s; induction a as [|ev a IH]; intros s; [reflexivity|].
  rewrite final_cons. cbn [dismiss_calls app]. rewrite IH.
  now destruct (invoked s ev).
Qed.

Lemma dismiss_calls_nil_cons (s : State) (ev : Event) (tr : list Event) :
  dismiss_calls s (ev :: tr) = [] ->
  invoked s ev = None /\ dismiss_calls (fst (step s ev)) tr = [].
Proof.
  cbn [dismiss_calls]. destruct (invoked s ev); [discriminate | now split].
Qed.

(** In a run with a single [dismiss] call, no call is made before and none
    after the event that makes it. *)
Lemma single_call_split
  (s : State) (pre rest : list Event) (call : Event) (r : option R) :
  dismiss_calls s (pre ++ call :: rest) = [r] ->
  invoked (final s pre) call = Some r ->
  dismiss_calls s pre = [] /\
  dismiss_calls (fst (step (final s pre) call)) rest = [].
Proof.
  rewrite dismiss_calls_app. cbn [dismiss_calls]. intros H Hi.
  rewrite Hi in H.
  destruct (dismiss_calls s pre) as [|x l]; simpl in H.
  - injection H as H. now split.
  - destruct l; simpl in H; discriminate.
Qed.

Lemma invoked_not_animation (s : State) (ev : Event) (r : option R) :
  invoked s ev = Some r -> is_done_hidden ev = false /\ is_start ev = false.
Proof. destruct ev; simpl; try discriminate; now split. Qed.

(** The subscriptions that drive disposal, and the clock. *)
Lemma step_subs (s : State) (ev : Event) :
  sub_hidden (fst (step s ev)) = sub_hidden s && negb (is_done_hidden ev) /\
  sub_start (fst (step s ev)) =
    (if is_start ev then 0
     else sub_start s +
          match invoked s ev with
          | Some _ => if afterDismissed_closed s then 0 else 1
          | None => 0
          end) /\
  clock (fst (step s ev)) = (clock s + elapsed [ev])%N.
Proof.
  destruct ev as [e| |d|r|w|dt]; unfold_step;
    cbn [invoked is_start is_done_hidden elapsed].
  - destruct_state s. animation_cases e; destruct so, sh; simpl;
      rewrite ?start_handlers_eq; simpl;
      rewrite ?N.add_0_r, ?Nat.add_0_r; repeat split; auto.
  - destruct_state s. destruct sd; simpl;
      rewrite ?N.add_0_r, ?Nat.add_0_r, ?andb_true_r; repeat split; auto.
  - destruct_state s.
    destruct (close_request d && closeAllowed _), cl; simpl;
      rewrite ?N.add_0_r, ?Nat.add_0_r, ?andb_true_r; repeat split; auto; lia.
  - destruct_state s. destruct cl; simpl;
      rewrite ?N.add_0_r, ?Nat.add_0_r, ?andb_true_r; repeat split; auto; lia.
  - destruct_state s. simpl.
    rewrite ?N.add_0_r, ?Nat.add_0_r, ?andb_true_r; repeat split; auto.
  - destruct_state s. simpl.
    rewrite ?N.add_0_r, ?Nat.add_0_r, ?andb_true_r; repeat split; auto.
Qed.

(** With no timer pending, a step arms none unless it delivers a start event
    to a subscription made by [dismiss]; it disposes only through the
    done/hidden subscription. *)
Lemma step_no_timer (s : State) (ev : Event) :
  timers s = [] ->
  is_start ev = false \/ sub_start s = 0 ->
  timers (fst (step s ev)) = [] /\
  count is_set_timeout (snd (step s ev)) = 0 /\
  count is_detach_backdrop (snd (step s ev)) = 0 /\
  count is_dispose (snd (step s ev)) =
    (if sub_hidden s && is_done_hidden ev then 1 else 0).
Proof.
  intros Htm Hq.
  destruct ev as [e| |d|r|w|dt]; unfold_step; cbn [is_start is_done_hidden] in *.
  - destruct_state s. subst tm.
    animation_cases e; destruct so, sh; simpl;
      rewrite ?start_handlers_eq; simpl; repeat split; auto;
      destruct Hq as [Hq|Hq]; try discriminate; subst ss; reflexivity.
  - destruct_state s. subst tm. destruct sd; simpl;
      rewrite ?andb_false_r; repeat split; auto.
  - destruct_state s. subst tm.
    destruct (close_request d && closeAllowed _), cl; simpl;
      rewrite ?andb_false_r; repeat split; auto.
  - destruct_state s. subst tm. destruct cl; simpl;
      rewrite ?andb_false_r; repeat split; auto.
  - destruct_state s. subst tm. simpl. rewrite ?andb_false_r; repeat split; auto.
  - destruct_state s. subst tm. simpl. rewrite ?andb_false_r; repeat split; auto.
Qed.

(** The handle kept in [_closeFallbackTimeout] is only assigned by the
    handler of a subscription made by [dismiss]. *)
Lemma step_handle (s : State) (ev : Event) :
  is_start ev = false \/ sub_start s = 0 ->
  _closeFallbackTimeout (fst (step s ev)) = _closeFallbackTimeout s.
Proof.
  intros Hq.
  destruct ev as [e| |d|r|w|dt]; unfold_step; cbn [is_start] in *.
  - destruct_state s.
    animation_cases e; destruct so, sh; simpl;
      rewrite ?start_handlers_eq; simpl; auto;
      destruct Hq as [Hq|Hq]; try discriminate; subst ss; reflexivity.
  - destruct_state s. now destruct sd.
  - destruct_state s. now destruct (close_request d && closeAllowed _), cl.
  - destruct_state s. now destruct cl.
  - reflexivity.
  - reflexivity.
Qed.

Lemma forallb_cons_true {A : Type} (f : A -> bool) (a : A) (l : list A) :
  forallb f (a :: l) = true -> f a = true /\ forallb f l = true.
Proof. simpl; intros H; now apply andb_true_iff in H. Qed.

Lemma no_detach_existsb (tr : list Event) :
  no_detach tr = true -> existsb is_detach tr = false.
Proof.
  unfold no_detach. induction tr as [|ev tr IH]; simpl; auto.
  intros H. apply andb_true_iff in H as [H1 H2].
  apply negb_true_iff in H1. now rewrite H1, IH.
Qed.

Lemma no_done_hidden_existsb (tr : list Event) :
  no_done_hidden tr = true -> existsb is_done_hidden tr = false.
Proof.
  unfold no_done_hidden. induction tr as [|ev tr IH]; simpl; auto.
  intros H. apply andb_true_iff in H as [H1 H2].
  apply negb_true_iff in H1. now rewrite H1, IH.
Qed.

Lemma run_sub_hidden (tr : list Event) (s : State) :
  sub_hidden (final s tr) = sub_hidden s && negb (existsb is_done_hidden tr).
Proof.
  revert s; induction tr as [|ev tr IH]; intros s.
  - rewrite final_nil; simpl. now rewrite andb_true_r.
  - rewrite final_cons, IH.
    destruct (step_subs s ev) as (-> & _ & _). simpl.
    destruct (sub_hidden s), (is_done_hidden ev); auto.
Qed.

(** An instance on which [dismiss] is not called holds no start subscription,
    arms no timer, and disposes only on the first done/hidden event. *)
Lemma run_idle (tr : list Event) (s : State) :
  timers s = [] -> sub_start s = 0 -> dismiss_calls s tr = [] ->
  timers (final s tr) = [] /\ sub_start (final s tr) = 0 /\
  _closeFallbackTimeout (final s tr) = _closeFallbackTimeout s /\
  count is_set_timeout (ops s tr) = 0 /\
  count is_detach_backdrop (ops s tr) = 0 /\
  count is_dispose (ops s tr) =
    (if sub_hidden s && existsb is_done_hidden tr then 1 else 0).
Proof.
  revert s; induction tr as [|ev tr IH]; intros s Htm Hss Htr.
  - rewrite final_nil, ops_nil, andb_false_r. now repeat split.
  - apply dismiss_calls_nil_cons in Htr as [Hev Htr].
    rewrite final_cons, ops_cons, !count_app.
    destruct (step_no_timer s ev Htm (or_intror Hss)) as (Ht & H1 & H2 & H3).
    destruct (step_subs s ev) as (Hsh & Hst & _).
    rewrite Hev, Hss in Hst.
    assert (Hss' : sub_start (fst (step s ev)) = 0)
      by (rewrite Hst; now destruct (is_start ev)).
    destruct (IH _ Ht Hss' Htr) as (IHt & IHs & IHh & IH1 & IH2 & IH3).
    rewrite IHt, IHs, IHh, IH1, IH2, IH3, H1, H2, H3, Hsh. simpl.
    rewrite (step_handle s ev (or_intror Hss)).
    repeat split; auto.
    destruct (sub_hidden s), (is_done_hidden ev),
      (existsb is_done_hidden tr); reflexivity.
Qed.

(** With no timer pending, a run without start events arms none, and
    without done/hidden events it does not dispose. *)
Lemma run_no_start (tr : list Event) (s : State) :
  timers s = [] -> no_start tr = true -> no_done_hidden tr = true ->
  timers (final s tr) = [] /\
  count is_set_timeout (ops s tr) = 0 /\
  count is_detach_backdrop (ops s tr) = 0 /\
  count is_dispose (ops s tr) = 0 /\
  (dismiss_calls s tr = [] -> sub_start (final s tr) = sub_start s).
Proof.
  revert s; induction tr as [|ev tr IH]; intros s Htm Hst Hdh.
  - rewrite final_nil, ops_nil. now repeat split.
  - apply forallb_cons_true in Hst as [Hev Hst]. apply negb_true_iff in Hev.
    apply forallb_cons_true in Hdh as [Hev' Hdh]. apply negb_true_iff in Hev'.
    rewrite final_cons, ops_cons, !count_app.
    destruct (step_no_timer s ev Htm (or_introl Hev)) as (Ht & H1 & H2 & H3).
    destruct (IH _ Ht Hst Hdh) as (IHt & IH1 & IH2 & IH3 & IHs).
    rewrite IHt, IH1, IH2, IH3, H1, H2, H3, Hev', andb_false_r.
    repeat split; auto.
    intros Hnd. apply dismiss_calls_nil_cons in Hnd as [Hnd1 Hnd].
    rewrite (IHs Hnd).
    destruct (step_subs s ev) as (_ & Hss & _).
    rewrite Hss, Hev, Hnd1. lia.
Qed.

Lemma start_not_done (p : string) :
  (p =? "start") = true -> (p =? "done") = false.
Proof. intros H; apply String.eqb_eq in H; now subst. Qed.

(** What the delivery of a start event does: every subscription made by
    [dismiss] arms a timer of [totalTime + 100] ms and detaches the backdrop;
    the handle kept is the one of the timer armed last. *)
Lemma step_start_event (s : State) (e : AnimationEvent) :
  (phaseName e =? "start") = true ->
  snd (step s (EvAnimation e)) =
    arm_ops (next_handle s) (sub_start s) (totalTime e + 100)%N /\
  timers (fst (step s (EvAnimation e))) =
    timers s ++
    new_timers (next_handle s) (sub_start s) (clock s + (totalTime e + 100))%N /\
  _closeFallbackTimeout (fst (step s (EvAnimation e))) =
    match sub_start s with
    | O => _closeFallbackTimeout s
    | S k => Some (next_handle s + k)
    end.
Proof.
  intros Hst. unfold_step.
  rewrite (start_not_done _ Hst), Hst, !andb_false_r. simpl.
  rewrite ?start_handlers_eq. now destruct_state s.
Qed.

Lemma step_arms (s : State) (ev : Event) :
  count is_set_timeout (snd (step s ev)) =
    (if is_start ev then sub_start s else 0).
Proof.
  destruct ev as [e| |d|r|w|dt]; cbn [is_start].
  - destruct (phaseName e =? "start") eqn:Hst.
    + destruct (step_start_event s e Hst) as (-> & _).
      unfold arm_ops, count. generalize (next_handle s).
      induction (sub_start s) as [|n IH]; intros k; simpl; auto.
    + unfold_step. rewrite Hst. destruct_state s.
      destruct so, sh, (phaseName e =? "done"), (toState e =? "visible"),
        (toState e =? "hidden"); reflexivity.
  - unfold_step. destruct_state s. now destruct sd.
  - unfold_step. destruct_state s.
    now destruct (close_request d && closeAllowed _), cl.
  - unfold_step. destruct_state s. now destruct cl.
  - reflexivity.
  - unfold_step. now apply count_const_other.
Qed.

Lemma run_sub_start_le (tr : list Event) (s : State) :
  sub_start (final s tr) <= sub_start s + List.length (dismiss_calls s tr).
Proof.
  revert s; induction tr as [|ev tr IH]; intros s.
  - rewrite final_nil; simpl; lia.
  - rewrite final_cons. cbn [dismiss_calls].
    specialize (IH (fst (step s ev))).
    destruct (step_subs s ev) as (_ & Hss & _). rewrite Hss in IH.
    destruct (is_start ev), (invoked s ev), (afterDismissed_closed s);
      simpl in *; lia.
Qed.

(** One timer pending, its handle kept, no start subscription: a step that
    neither calls [dismiss] nor delivers done/hidden fires the timer when its
    deadline is reached and changes nothing of this otherwise. *)
Lemma step_pending (s : State) (ev : Event) (h : nat) (d : N) :
  timers s = [(h, d)] -> _closeFallbackTimeout s = Some h ->
  sub_start s = 0 -> (clock s < d)%N ->
  invoked s ev = None -> is_done_hidden ev = false ->
  _closeFallbackTimeout (fst (step s ev)) = Some h /\
  timers (fst (step s ev)) =
    (if (d <=? clock s + elapsed [ev])%N then [] else [(h, d)]) /\
  count is_dispose (snd (step s ev)) =
    (if (d <=? clock s + elapsed [ev])%N then 1 else 0).
Proof.
  intros Htm Hh Hss Hck Hnd Hdh.
  assert (Hle : (d <=? clock s)%N = false) by (apply N.leb_gt; lia).
  destruct ev as [e| |dm|r|w|dt]; cbn [invoked] in Hnd; try discriminate;
    cbn [elapsed is_done_hidden] in *; rewrite ?N.add_0_r; rewrite ?Hle.
  - unfold_step. destruct_state s. subst.
    animation_cases e; try discriminate; destruct so, sh; simpl;
      rewrite ?start_handlers_eq; simpl; repeat split; auto.
  - unfold_step. destruct_state s. subst.
    destruct sd; simpl; repeat split; auto.
  - cbn [step]. rewrite on_dom_eq.
    destruct (close_request dm && closeAllowed s); [discriminate|].
    simpl. now repeat split.
  - unfold_step. destruct_state s. subst.
    simpl; repeat split; auto.
  - unfold_step. destruct_state s. subst. simpl. unfold due; simpl.
    destruct (d <=? ck + dt)%N; simpl; repeat split; auto.
Qed.


Lemma run_pending (tr : list Event) (s : State) (h : nat) (d : N) :
  timers s = [(h, d)] -> _closeFallbackTimeout s = Some h ->
  sub_start s = 0 -> (clock s < d)%N ->
  dismiss_calls s tr = [] -> no_done_hidden tr = true ->
  _closeFallbackTimeout (final s tr) = Some h /\
  sub_start (final s tr) = 0 /\
  timers (final s tr) =
    (if (d <=? clock s + elapsed tr)%N then [] else [(h, d)]) /\
  count is_dispose (ops s tr) =
    (if (d <=? clock s + elapsed tr)%N then 1 else 0).
Proof.
  revert s; induction tr as [|ev tr IH]; intros s Htm Hh Hss Hck Hnd Hdh.
  - rewrite final_nil, ops_nil. cbn [elapsed]. rewrite N.add_0_r.
    replace (d <=? clock s)%N with false by (symmetry; apply N.leb_gt; lia).
    now repeat split.
  - apply dismiss_calls_nil_cons in Hnd as [Hev Hnd].
    apply forallb_cons_true in Hdh as [Hev' Hdh]. apply negb_true_iff in Hev'.
    rewrite final_cons, ops_cons, count_app.
    destruct (step_pending s ev h d Htm Hh Hss Hck Hev Hev') as (Hh1 & Ht1 & Hc1).
    destruct (step_subs s ev) as (_ & Hss1 & Hck1).
    rewrite Hev, Hss in Hss1.
    assert (Hss' : sub_start (fst (step s ev)) = 0)
      by (rewrite Hss1; now destruct (is_start ev)).
    assert (Hel : (clock s + elapsed (ev :: tr) =
                   clock s + elapsed [ev] + elapsed tr)%N)
      by (destruct ev; cbn [elapsed]; lia).
    rewrite Hel, Hc1.
    destruct (d <=? clock s + elapsed [ev])%N eqn:Hfire.
    + (* the timer fires in this step; nothing is pending afterwards *)
      destruct (run_idle tr (fst (step s ev)) Ht1 Hss' Hnd)
        as (It & Is & Ih & _ & _ & Ic).
      rewrite (no_done_hidden_existsb tr Hdh), andb_false_r in Ic.
      apply N.leb_le in Hfire.
      replace (d <=? clock s + elapsed [ev] + elapsed tr)%N with true
        by (symmetry; apply N.leb_le; lia).
      rewrite It, Is, Ic, Ih, Hh1. now repeat split.
    + apply N.leb_gt in Hfire.
      assert (Hck' : (clock (fst (step s ev)) < d)%N) by (rewrite Hck1; exact Hfire).
      destruct (IH _ Ht1 Hh1 Hss' Hck' Hnd Hdh) as (I1 & I2 & I3 & I4).
      rewrite Hck1 in I3, I4.
      rewrite I1, I2, I3, I4. now repeat split.
Qed.

Lemma forallb_app_true {A : Type} (f : A -> bool) (a b : list A) :
  forallb f (a ++ b) = true -> forallb f a = true /\ forallb f b = true.
Proof. rewrite forallb_app. intros H; now apply andb_true_iff in H. Qed.

(** The state in which the first [dismiss] call leaves an instance, when it
    is made before any detachment. *)
Lemma run_dismissed
  (cfg : option bool) (pre : list Event) (call : Event) (r : option R) :
  dismiss_calls (construct cfg) pre = [] -> no_detach pre = true ->
  invoked (final (construct cfg) pre) call = Some r ->
  let sp := final (construct cfg) pre in
  let sd := fst (step sp call) in
  timers sd = [] /\ sub_start sd = 1 /\ sub_hidden sd = sub_hidden sp /\
  count is_dispose (snd (step sp call)) = 0.
Proof.
  intros Hnd Hdt Hi sp sd. fold sp in Hi.
  destruct (run_idle pre (construct cfg) eq_refl eq_refl Hnd)
    as (Ht & Hs & _).
  destruct (run_detach pre (construct cfg)) as (_ & Hcl & _).
  rewrite (no_detach_existsb pre Hdt) in Hcl. simpl in Hcl.
  fold sp in Ht, Hs, Hcl.
  destruct (invoked_not_animation sp call r Hi) as (Hdh & Hst).
  destruct (step_no_timer sp call Ht (or_intror Hs)) as (Tt & _ & _ & Tc).
  destruct (step_subs sp call) as (Sy & Ss & _).
  rewrite Hdh, andb_false_r in Tc.
  rewrite Hdh, andb_true_r in Sy. rewrite Hst, Hi, Hcl, Hs in Ss.
  now repeat split.
Qed.

(** The state in which the first start event after a single [dismiss] call
    leaves an instance: one timer of [totalTime + 100] ms pending, its
    handle kept, the backdrop detached, nothing disposed since the call. *)
Lemma run_armed
  (cfg : option bool) (pre mid : list Event) (call : Event) (r : option R)
  (e : AnimationEvent) :
  dismiss_calls (construct cfg) pre = [] -> no_detach pre = true ->
  invoked (final (construct cfg) pre) call = Some r ->
  dismiss_calls (fst (step (final (construct cfg) pre) call)) mid = [] ->
  no_start mid = true -> no_done_hidden mid = true ->
  (phaseName e =? "start") = true ->
  let sp := final (construct cfg) pre in
  let s0 := final sp (call :: mid) in
  let s1 := fst (step s0 (EvAnimation e)) in
  snd (step s0 (EvAnimation e)) =
    [OpSetTimeout (next_handle s0) (totalTime e + 100)%N; OpDetachBackdrop] /\
  timers s1 = [(next_handle s0, (clock s0 + (totalTime e + 100))%N)] /\
  _closeFallbackTimeout s1 = Some (next_handle s0) /\
  sub_start s1 = 0 /\ clock s1 = clock s0 /\
  sub_hidden s1 = sub_hidden sp /\
  count is_dispose (ops sp (call :: mid)) = 0.
Proof.
  intros Hnd Hdt Hi Hmd Hms Hmh Hst sp s0 s1.
  destruct (run_dismissed cfg pre call r Hnd Hdt Hi) as (Ht & Hs & Hh & Ho).
  fold sp in Ht, Hs, Hh, Ho, Hmd.
  destruct (run_no_start mid _ Ht Hms Hmh) as (Mt & _ & _ & Mc & Ms).
  specialize (Ms Hmd).
  pose proof (run_sub_hidden mid (fst (step sp call))) as Mh.
  rewrite (no_done_hidden_existsb mid Hmh), andb_true_r, Hh in Mh.
  assert (E0 : s0 = final (fst (step sp call)) mid)
    by (unfold s0; now rewrite final_cons).
  rewrite <- E0 in Mt, Ms, Mh. rewrite Hs in Ms.
  destruct (step_start_event s0 e Hst) as (So & St & Sh).
  destruct (step_subs s0 (EvAnimation e)) as (Sy & Ss & Sc).
  cbn [is_start is_done_hidden elapsed] in Sy, Ss, Sc.
  rewrite Hst in Ss. rewrite (start_not_done _ Hst) in Sy.
  cbn [andb negb] in Sy. rewrite andb_true_r in Sy. rewrite N.add_0_r in Sc.
  rewrite Ms in So, St, Sh. rewrite Mt in St. rewrite Nat.add_0_r in Sh.
  fold s1 in St, Sh, Sy, Ss, Sc.
  repeat split; auto.
  - now rewrite Sy, Mh.
  - rewrite ops_cons, count_app, Mc, Ho. reflexivity.
Qed.

(** C3 (amended). In a run with one [dismiss] call, made while
    [_afterDismissed] is not completed, the first start event after the call
    arms one timer of
    [totalTime + 100] ms and detaches the backdrop in the same step; when no
    done/hidden event is delivered after the call, the overlay has been
    disposed exactly once as soon as [totalTime + 100] ms have passed since
    that start event, and not before. *)
Theorem fallback_timer_disposes
  (cfg : option bool) (pre mid post : list Event) (call : Event)
  (r : option R) (e : AnimationEvent) :
  let sp := final (construct cfg) pre in
  dismiss_calls (construct cfg)
    (pre ++ call :: mid ++ EvAnimation e :: post) = [r] ->
  invoked sp call = Some r ->
  no_detach pre = true ->
  no_start mid = true ->
  (phaseName e =? "start") = true ->
  no_done_hidden (mid ++ post) = true ->
  let s0 := final sp (call :: mid) in
  snd (step s0 (EvAnimation e)) =
    [OpSetTimeout (next_handle s0) (totalTime e + 100)%N; OpDetachBackdrop] /\
  timers (fst (step s0 (EvAnimation e))) =
    [(next_handle s0, (clock s0 + (totalTime e + 100))%N)] /\
  count is_dispose (ops sp (call :: mid ++ EvAnimation e :: post)) =
    (if (totalTime e + 100 <=? elapsed post)%N then 1 else 0).
Proof.
  intros sp Hone Hi Hdt Hms Hst Hdh s0.
  destruct (single_call_split _ _ _ _ _ Hone Hi) as (Hnd & Hrest).
  rewrite dismiss_calls_app in Hrest.
  apply app_eq_nil in Hrest as (Hmd & Hrest).
  apply dismiss_calls_nil_cons in Hrest as (_ & Hpd).
  apply forallb_app_true in Hdh as (Hmh & Hph).
  destruct (run_armed cfg pre mid call r e Hnd Hdt Hi Hmd Hms Hmh Hst)
    as (Ao & At & Ah & As & Ac & _ & Ad).
  fold sp in Ao, At, Ah, As, Ac, Ad, Hpd. fold s0 in Ao, At, Ah, As, Ac.
  rewrite <- final_cons in Hpd. fold s0 in Hpd.
  split; [exact Ao|]. split; [exact At|].
  assert (Hlt : (clock (fst (step s0 (EvAnimation e))) <
                 clock s0 + (totalTime e + 100))%N) by (rewrite Ac; lia).
  destruct (run_pending post _ _ _ At Ah As Hlt Hpd Hph) as (_ & _ & _ & Pc).
  change (call :: mid ++ EvAnimation e :: post)
    with ((call :: mid) ++ EvAnimation e :: post).
  rewrite ops_app, count_app, Ad. fold s0.
  rewrite (ops_cons s0 (EvAnimation e)), count_app, Ao, Pc, Ac. simpl.
  destruct (totalTime e + 100 <=? elapsed post)%N eqn:Hle.
  - apply N.leb_le in Hle.
    replace (clock s0 + (totalTime e + 100) <=? clock s0 + elapsed post)%N
      with true by (symmetry; apply N.leb_le; lia).
    reflexivity.
  - apply N.leb_gt in Hle.
    replace (clock s0 + (totalTime e + 100) <=? clock s0 + elapsed post)%N
      with false by (symmetry; apply N.leb_gt; lia).
    reflexivity.
Qed.


(** C9. A timer is armed only by a step that delivers a start event to an
    instance on which [dismiss] has been called.  After the first [dismiss]
    call, as long as the container emits no start event and no done/hidden
    event, no timer is armed, the backdrop is not detached and [dispose()]
    is not called, whatever else happens and however much time passes. *)
Theorem no_start_event_no_timer
  (cfg : option bool) (pre post : list Event) (call : Event) (r : option R) :
  dismiss_calls (construct cfg) pre = [] ->
  invoked (final (construct cfg) pre) call = Some r ->
  no_start post = true -> no_done_hidden post = true ->
  let s := final (construct cfg) (pre ++ [call]) in
  (forall tr ev,
     count is_set_timeout (snd (step (final (construct cfg) tr) ev)) <> 0 ->
     is_start ev = true /\ dismiss_calls (construct cfg) tr <> []) /\
  count is_set_timeout (ops s post) = 0 /\
  count is_detach_backdrop (ops s post) = 0 /\
  count is_dispose (ops s post) = 0 /\
  timers (final s post) = [].
Proof.
  intros Hnd Hi Hps Hph s. split.
  - intros tr ev Hne. rewrite step_arms in Hne.
    destruct (is_start ev); [split; auto | now contradiction Hne].
    intros Hnil.
    pose proof (run_sub_start_le tr (construct cfg)) as Hle.
    rewrite Hnil in Hle. simpl in Hle. lia.
  - destruct (run_idle pre (construct cfg) eq_refl eq_refl Hnd) as (Ht & _).
    destruct (invoked_not_animation _ _ _ Hi) as (_ & Hns).
    assert (Ht' : timers s = []).
    { unfold s. rewrite final_app, final_cons, final_nil.
      destruct (step_no_timer (final (construct cfg) pre) call Ht
                  (or_introl Hns)) as (Ht' & _).
      exact Ht'. }
    destruct (run_no_start post s Ht' Hps Hph) as (Nt & N1 & N2 & N3 & _).
    now repeat split.
Qed.

(** ** Further properties of the constructor's subscriptions and of dismiss *)

Lemma run_cons_eq (s : State) (ev : Event) (tr : list Event) :
  run s (ev :: tr) =
  (final (fst (step s ev)) tr, snd (step s ev) ++ ops (fst (step s ev)) tr).
Proof.
  unfold final, ops; simpl. destruct (step s ev) as [s1 o1]; simpl.
  now destruct (run s1 tr).
Qed.

(** An event whose step changes nothing can be dropped from a run. *)
Lemma run_skip (a b : list Event) (ev : Event) (s : State) :
  (forall s', step s' ev = (s', [])) ->
  run s (a ++ ev :: b) = run s (a ++ b).
Proof.
  intros Hskip. rewrite !run_app, run_cons_eq, Hskip. reflexivity.
Qed.

(** X1. A keydown of a key other than Escape, or of Escape with a modifier
    key held, is ignored whatever [disableClose] holds: the step changes
    nothing, and a run does the same with or without that event. *)
Theorem inert_keydown_ignored
  (s : State) (a b : list Event) (k : KeyboardEvent) :
  inert_key k = true ->
  step s (EvDom (KeyDown k)) = (s, []) /\
  run s (a ++ EvDom (KeyDown k) :: b) = run s (a ++ b).
Proof.
  intros Hk.
  assert (H : forall s', step s' (EvDom (KeyDown k)) = (s', [])).
  { intros s'. cbn [step]. unfold on_dom, passes_escape_filter, event_type.
    unfold inert_key in Hk.
    destruct (keyCode k =? ESCAPE)%N; [|reflexivity].
    simpl in Hk. rewrite Hk. simpl. now rewrite andb_false_r. }
  split; [apply H | now apply run_skip].
Qed.

(** X2. An animation event that none of the three filters lets through (a
    phase other than start and done, or done with a state other than
    visible and hidden) is ignored: the step changes nothing, and a run
    does the same with or without that event. *)
Theorem unmatched_animation_ignored
  (s : State) (a b : list Event) (e : AnimationEvent) :
  unmatched_animation e = true ->
  step s (EvAnimation e) = (s, []) /\
  run s (a ++ EvAnimation e :: b) = run s (a ++ b).
Proof.
  intros He.
  assert (H : forall s', step s' (EvAnimation e) = (s', [])).
  { intros s'. unfold unmatched_animation in He.
    apply andb_true_iff in He as [Hs Hd].
    apply negb_true_iff in Hs. apply negb_true_iff in Hd.
    cbn [step]. rewrite on_animation_eq, !on_start_eq, Hs.
    unfold on_opened, on_hidden.
    destruct (phaseName e =? "done"), (toState e =? "visible"),
      (toState e =? "hidden"); simpl in Hd; try discriminate;
      rewrite ?andb_false_r; reflexivity. }
  split; [apply H | now apply run_skip].
Qed.

(** X3. The three subscriptions of the constructor take one event each:
    once a done/visible event, a done/hidden event or a detachment has been
    delivered, a later event of the same kind changes nothing and performs
    no operation (in particular a second done/hidden event does not dispose
    again). *)
Theorem repeated_notification_ignored
  (cfg : option bool) (tr : list Event) (ev : Event) :
  (is_done_visible ev && existsb is_done_visible tr) ||
  (is_done_hidden ev && existsb is_done_hidden tr) ||
  (is_detach ev && existsb is_detach tr) = true ->
  step (final (construct cfg) tr) ev = (final (construct cfg) tr, []).
Proof.
  intros H.
  destruct (run_opened tr (construct cfg)) as (Ho & _).
  pose proof (run_sub_hidden tr (construct cfg)) as Hh.
  destruct (run_detach tr (construct cfg)) as (Hd & _).
  simpl in Ho, Hh, Hd.
  revert Ho Hh Hd. generalize (final (construct cfg) tr) as sf.
  intros sf Ho Hh Hd.
  destruct ev as [e| |d|r|w|dt]; cbn [is_done_visible is_done_hidden is_detach]
    in H; rewrite ?andb_false_l, ?orb_false_r in H; try discriminate.
  - cbn [step]. rewrite on_animation_eq, !on_start_eq.
    unfold on_opened, on_hidden. destruct_state sf. subst so sh.
    destruct (existsb is_done_visible tr), (existsb is_done_hidden tr);
      animation_cases e; simpl in H; try discriminate; simpl;
      rewrite ?Hstart; reflexivity.
  - cbn [step]. unfold on_detach. simpl in H. now rewrite Hd, H.
Qed.

(** X4. Once a detachment has been notified, a backdrop click or modifier-free
    Escape still has its default prevented when closing is allowed; what
    follows depends on the subject only: nothing more when [complete()] has
    closed it, the whole work of [dismiss] otherwise. *)
Theorem close_request_after_detachment
  (cfg : option bool) (tr : list Event) (d : DomEvent) :
  existsb is_detach tr = true ->
  close_request d = true ->
  closeAllowed (final (construct cfg) tr) = true ->
  snd (step (final (construct cfg) tr) (EvDom d)) =
    OpPreventDefault ::
    (if closed_after_complete then []
     else [OpSubscribeStart; OpStoreResult None; OpExit]).
Proof.
  intros Hdt Hd Hc.
  destruct (run_detach tr (construct cfg)) as (_ & Hcl & _).
  rewrite Hdt in Hcl. simpl in Hcl.
  cbn [step]. rewrite on_dom_eq, Hd, Hc. unfold dismiss. rewrite Hcl.
  now destruct closed_after_complete.
Qed.

Lemma step_disableClose (s : State) (ev : Event) :
  disableClose (fst (step s ev)) =
  match ev with
  | EvSetDisableClose v => v
  | _ => disableClose s
  end.
Proof.
  destruct ev as [e| |d|r|w|dt]; unfold_step.
  - destruct_state s. animation_cases e; destruct so, sh; simpl;
      rewrite ?start_handlers_eq; reflexivity.
  - destruct_state s. now destruct sd.
  - destruct_state s.
    now destruct (close_request d && closeAllowed _), cl.
  - destruct_state s. now destruct cl.
  - reflexivity.
  - reflexivity.
Qed.

(** X5. The class never writes [disableClose] after construction: at any
    point of a run the field holds the value assigned last by a caller, or
    the value copied from the configuration when none was assigned. *)
Theorem disableClose_only_assigned (cfg : option bool) (tr : list Event) :
  disableClose (final (construct cfg) tr) = last_assigned cfg tr.
Proof.
  change cfg with (disableClose (construct cfg)) at 2.
  generalize (construct cfg) as s.
  induction tr as [|ev tr IH]; intros s; [reflexivity|].
  rewrite final_cons, IH, step_disableClose.
  now destruct ev.
Qed.

Lemma step_subscribe (s : State) (ev : Event) :
  count is_subscribe_start (snd (step s ev)) =
  match invoked s ev with
  | Some _ => if afterDismissed_closed s then 0 else 1
  | None => 0
  end.
Proof.
  destruct ev as [e| |d|r|w|dt]; unfold_step; cbn [invoked].
  - destruct_state s. animation_cases e; destruct so, sh; simpl;
      rewrite ?start_handlers_eq; simpl; unfold count;
      rewrite ?app_nil_r; auto;
      apply (count_arm_ops is_subscribe_start); reflexivity.
  - destruct_state s. now destruct sd.
  - destruct_state s.
    now destruct (close_request d && closeAllowed _), cl.
  - destruct_state s. now destruct cl.
  - reflexivity.
  - now apply count_const_other.
Qed.

(** X6. [exit()] is called by [dismiss] and by nothing else: in any run, from
    any state, it is called as often as a result is stored and as a start
    subscription is made, and never more often than [dismiss] is called. *)
Theorem exit_only_by_dismiss (s : State) (tr : list Event) :
  count is_exit (ops s tr) = count is_store_result (ops s tr) /\
  count is_exit (ops s tr) = count is_subscribe_start (ops s tr) /\
  count is_exit (ops s tr) <= List.length (dismiss_calls s tr).
Proof.
  revert s; induction tr as [|ev tr IH]; intros s.
  - rewrite ops_nil. repeat split; auto.
  - rewrite ops_cons, !count_app. cbn [dismiss_calls].
    destruct (IH (fst (step s ev))) as (I1 & I2 & I3).
    destruct (step_dismiss_work s ev) as (H1 & H2).
    pose proof (step_subscribe s ev) as H3.
    rewrite H1, H2, H3, <- I1, <- I2.
    repeat split; auto.
    destruct (invoked s ev), (afterDismissed_closed s); simpl; lia.
Qed.

(** What a step does to the pending timers, to the next handle, and how
    often it disposes. *)
Lemma step_timers (s : State) (ev : Event) :
  timers (fst (step s ev)) =
    match ev with
    | EvAnimation e =>
        (if sub_hidden s && is_done_hidden ev
         then filter (fun p => negb (is_handle (_closeFallbackTimeout s) p))
                (timers s)
         else timers s) ++
        (if is_start ev
         then new_timers (next_handle s) (sub_start s)
                (clock s + (totalTime e + 100))%N
         else [])
    | EvElapse dt =>
        filter (fun p => negb (due (clock s + dt)%N p)) (timers s)
    | _ => timers s
    end /\
  next_handle (fst (step s ev)) =
    next_handle s + (if is_start ev then sub_start s else 0) /\
  count is_dispose (snd (step s ev)) =
    (if sub_hidden s && is_done_hidden ev then 1 else 0) +
    match ev with
    | EvElapse dt => List.length (filter (due (clock s + dt)%N) (timers s))
    | _ => 0
    end.
Proof.
  destruct ev as [e| |d|r|w|dt]; unfold_step; cbn [is_start is_done_hidden].
  - destruct_state s. animation_cases e; destruct so, sh; simpl;
      rewrite ?start_handlers_eq; simpl;
      rewrite ?app_nil_r, ?Nat.add_0_r; repeat split; auto;
      unfold count; rewrite ?app_nil_r;
      apply (count_arm_ops is_dispose); reflexivity.
  - destruct_state s. destruct sd; simpl;
      rewrite ?andb_false_r, ?Nat.add_0_r; repeat split; auto.
  - destruct_state s.
    destruct (close_request d && closeAllowed _), cl; simpl;
      rewrite ?andb_false_r, ?Nat.add_0_r; repeat split; auto.
  - destruct_state s. destruct cl; simpl;
      rewrite ?andb_false_r, ?Nat.add_0_r; repeat split; auto.
  - destruct_state s. simpl.
    rewrite ?andb_false_r, ?Nat.add_0_r; repeat split; auto.
  - destruct_state s. simpl. rewrite andb_false_r, Nat.add_0_r.
    repeat split; auto. unfold count.
    induction (filter (due (ck + dt)) tm); simpl; auto.
Qed.

Lemma step_detach_backdrop (s : State) (ev : Event) :
  count is_detach_backdrop (snd (step s ev)) =
    (if is_start ev then sub_start s else 0) /\
  forallb delay_at_least_100 (snd (step s ev)) = true.
Proof.
  assert (Harm : forall h n d, (100 <=? d)%N = true ->
            count is_detach_backdrop (arm_ops h n d) = n /\
            forallb delay_at_least_100 (arm_ops h n d) = true).
  { intros h n d Hd. unfold arm_ops, count. revert h.
    induction n as [|n IH]; intros h; simpl; [now split|].
    destruct (IH (S h)) as (I1 & I2). rewrite I1, I2, Hd. now split. }
  destruct ev as [e| |d|r|w|dt]; cbn [is_start].
  - destruct (phaseName e =? "start") eqn:Hst.
    + destruct (step_start_event s e Hst) as (-> & _).
      apply Harm. apply N.leb_le. lia.
    + unfold_step. rewrite Hst. destruct_state s.
      destruct so, sh, (phaseName e =? "done"), (toState e =? "visible"),
        (toState e =? "hidden"); split; reflexivity.
  - unfold_step. destruct_state s. destruct sd; split; reflexivity.
  - unfold_step. destruct_state s.
    destruct (close_request d && closeAllowed _), cl; split; reflexivity.
  - unfold_step. destruct_state s. destruct cl; split; reflexivity.
  - split; reflexivity.
  - unfold_step. split; [now apply count_const_other|].
    generalize (filter (due (clock s + dt)%N) (timers s)) as l.
    induction l; simpl; auto.
Qed.

(** X7. Arming the fallback timer and detaching the backdrop go together: in
    any run, from any state, [detachBackdrop()] is called exactly as often
    as a timer is armed, and every timer is armed with a delay of at least
    100 ms. *)
Theorem backdrop_detached_with_each_timer (s : State) (tr : list Event) :
  count is_detach_backdrop (ops s tr) = count is_set_timeout (ops s tr) /\
  forallb delay_at_least_100 (ops s tr) = true.
Proof.
  revert s; induction tr as [|ev tr IH]; intros s.
  - rewrite ops_nil. now split.
  - rewrite ops_cons, !count_app, forallb_app.
    destruct (IH (fst (step s ev))) as (I1 & I2).
    destruct (step_detach_backdrop s ev) as (H1 & H2).
    rewrite I1, I2, H1, H2, step_arms. now split.
Qed.

Lemma run_before_start (tr : list Event) (s : State) :
  no_start tr = true -> no_detach tr = true ->
  timers s = [] -> afterDismissed_closed s = false ->
  timers (final s tr) = [] /\
  sub_start (final s tr) = sub_start s + List.length (dismiss_calls s tr) /\
  _closeFallbackTimeout (final s tr) = _closeFallbackTimeout s.
Proof.
  revert s; induction tr as [|ev tr IH]; intros s Hst Hdt Htm Hcl.
  - rewrite final_nil. simpl. repeat split; auto.
  - apply forallb_cons_true in Hst as [Hev Hst]. apply negb_true_iff in Hev.
    apply forallb_cons_true in Hdt as [Hev' Hdt]. apply negb_true_iff in Hev'.
    rewrite final_cons. cbn [dismiss_calls].
    destruct (step_no_timer s ev Htm (or_introl Hev)) as (Ht & _).
    destruct (step_detach s ev) as (_ & Hcl' & _).
    rewrite Hcl, Hev', andb_false_r in Hcl'. simpl in Hcl'.
    destruct (IH _ Hst Hdt Ht Hcl') as (I1 & I2 & I3).
    destruct (step_subs s ev) as (_ & Hss & _).
    rewrite I1, I2, I3, Hss, Hev, Hcl, (step_handle s ev (or_introl Hev)).
    repeat split; auto.
    destruct (invoked s ev); simpl; lia.
Qed.

(** X8. Every [dismiss] call made before the start event has a subscription
    of its own: when no start event and no detachment came before, a start
    event arms as many timers as [dismiss] was called, all of
    [totalTime + 100] ms, detaches the backdrop as often, and keeps the
    handle of the timer armed last only. *)
Theorem start_arms_one_timer_per_call
  (cfg : option bool) (tr : list Event) (e : AnimationEvent) :
  no_start tr = true -> no_detach tr = true ->
  (phaseName e =? "start") = true ->
  let s0 := final (construct cfg) tr in
  let n := List.length (dismiss_calls (construct cfg) tr) in
  snd (step s0 (EvAnimation e)) =
    arm_ops (next_handle s0) n (totalTime e + 100)%N /\
  timers (fst (step s0 (EvAnimation e))) =
    new_timers (next_handle s0) n (clock s0 + (totalTime e + 100))%N /\
  List.length (timers (fst (step s0 (EvAnimation e)))) = n /\
  _closeFallbackTimeout (fst (step s0 (EvAnimation e))) =
    match n with
    | O => None
    | S k => Some (next_handle s0 + k)
    end.
Proof.
  intros Hst Hdt He s0 n.
  destruct (run_before_start tr (construct cfg) Hst Hdt eq_refl eq_refl)
    as (Ht & Hs & Hh).
  fold s0 in Ht, Hs, Hh. simpl in Hs, Hh. fold n in Hs.
  destruct (step_start_event s0 e He) as (So & St & Sh).
  rewrite Hs in So, St, Sh. rewrite Ht in St. rewrite Hh in Sh.
  cbn [app] in St. repeat split; auto.
  rewrite St. unfold new_timers. now rewrite length_map, length_seq.
Qed.

Lemma length_new_timers (h n : nat) (d : N) :
  List.length (new_timers h n d) = n.
Proof. unfold new_timers. now rewrite length_map, length_seq. Qed.

(** Every disposal is paid for by a pending timer, or by the done/hidden
    subscription. *)
Lemma step_dispose_budget (s : State) (ev : Event) :
  count is_dispose (snd (step s ev)) + List.length (timers (fst (step s ev)))
  <= List.length (timers s) + count is_set_timeout (snd (step s ev)) +
     (if sub_hidden s && is_done_hidden ev then 1 else 0).
Proof.
  destruct (step_timers s ev) as (Ht & _ & Hc).
  rewrite Ht, Hc, step_arms.
  destruct ev as [e| |d|r|w|dt]; cbn [is_start is_done_hidden];
    rewrite ?andb_false_r; try lia.
  - rewrite List.length_app.
    pose proof (filter_length_le
                  (fun p => negb (is_handle (_closeFallbackTimeout s) p))
                  (timers s)) as Hle.
    destruct (sub_hidden s && _), (phaseName e =? "start");
      simpl; rewrite ?length_new_timers; lia.
  - pose proof (filter_length (due (clock s + dt)%N) (timers s)) as Hp.
    cbn [is_start]. lia.
Qed.

Lemma run_dispose_budget (tr : list Event) (s : State) :
  count is_dispose (ops s tr) + List.length (timers (final s tr))
  <= List.length (timers s) + count is_set_timeout (ops s tr) +
     (if sub_hidden s && existsb is_done_hidden tr then 1 else 0).
Proof.
  revert s; induction tr as [|ev tr IH]; intros s.
  - rewrite ops_nil, final_nil. simpl. lia.
  - rewrite ops_cons, final_cons, !count_app.
    specialize (IH (fst (step s ev))).
    pose proof (step_dispose_budget s ev) as Hs.
    destruct (step_subs s ev) as (Hh & _). rewrite Hh in IH.
    simpl existsb.
    destruct (sub_hidden s), (is_done_hidden ev),
      (existsb is_done_hidden tr); simpl in *; lia.
Qed.

Lemma run_armed_budget (tr : list Event) (s : State) :
  count is_set_timeout (ops s tr) + sub_start (final s tr)
  <= sub_start s + List.length (dismiss_calls s tr).
Proof.
  revert s; induction tr as [|ev tr IH]; intros s.
  - rewrite ops_nil, final_nil. simpl. lia.
  - rewrite ops_cons, final_cons, count_app, step_arms. cbn [dismiss_calls].
    specialize (IH (fst (step s ev))).
    destruct (step_subs s ev) as (_ & Hss & _). rewrite Hss in IH.
    destruct (is_start ev), (invoked s ev), (afterDismissed_closed s);
      simpl in *; lia.
Qed.

(** X9. In any run from construction, [dispose()] is called at most once per
    timer armed, plus once if a done/hidden event was delivered; and no more
    timers are armed than [dismiss] was called.  So [dispose()] is called at
    most once more than [dismiss]. *)
Theorem dispose_calls_bounded (cfg : option bool) (tr : list Event) :
  count is_dispose (ops (construct cfg) tr) <=
    count is_set_timeout (ops (construct cfg) tr) +
    (if existsb is_done_hidden tr then 1 else 0) /\
  count is_set_timeout (ops (construct cfg) tr) <=
    List.length (dismiss_calls (construct cfg) tr) /\
  count is_dispose (ops (construct cfg) tr) <=
    S (List.length (dismiss_calls (construct cfg) tr)).
Proof.
  pose proof (run_dispose_budget tr (construct cfg)) as Hd.
  pose proof (run_armed_budget tr (construct cfg)) as Ha.
  simpl in Hd, Ha.
  destruct (existsb is_done_hidden tr); repeat split; lia.
Qed.

Lemma handles_filter (f : nat * N -> bool) (l : list (nat * N)) (h : nat) :
  In h (map fst (filter f l)) -> In h (map fst l).
Proof.
  rewrite !in_map_iff. intros (p & Hp & Hin).
  apply filter_In in Hin as (Hin & _). now exists p.
Qed.

Lemma NoDup_handles_filter (f : nat * N -> bool) (l : list (nat * N)) :
  NoDup (map fst l) -> NoDup (map fst (filter f l)).
Proof.
  induction l as [|p l IH]; simpl; intros H; [constructor|].
  inversion H as [|x xs Hnin Hnd]; subst.
  destruct (f p); simpl; auto.
  constructor; auto. intros Hin. apply Hnin. eapply handles_filter; eauto.
Qed.

(** Clearing one handle cancels at most one of timers with distinct
    handles. *)
Lemma clear_at_most_one (h : option nat) (l : list (nat * N)) :
  NoDup (map fst l) ->
  List.length l <=
    S (List.length (filter (fun p => negb (is_handle h p)) l)).
Proof.
  destruct h as [n|]; simpl.
  - induction l as [|p l IH]; simpl; intros H; [lia|].
    inversion H as [|x xs Hnin Hnd]; subst.
    destruct (Nat.eqb n (fst p)) eqn:Hn; simpl.
    + apply Nat.eqb_eq in Hn. subst n.
      assert (Hall : filter (fun q => negb (Nat.eqb (fst p) (fst q))) l = l).
      { clear - Hnin. induction l as [|q l IH]; simpl; auto.
        destruct (Nat.eqb (fst p) (fst q)) eqn:Hq; simpl.
        - apply Nat.eqb_eq in Hq. exfalso. apply Hnin. left. now symmetry.
        - f_equal. apply IH. intros Hin. apply Hnin. now right. }
      rewrite Hall. lia.
    + specialize (IH Hnd). lia.
  - intros _. induction l; simpl; lia.
Qed.

(** The handles of the pending timers are distinct and were all issued. *)
Lemma step_handles (s : State) (ev : Event) :
  NoDup (handles s) -> Forall (fun h => h < next_handle s) (handles s) ->
  NoDup (handles (fst (step s ev))) /\
  Forall (fun h => h < next_handle (fst (step s ev))) (handles (fst (step s ev))).
Proof.
  unfold handles. intros Hnd Hlt.
  destruct (step_timers s ev) as (Ht & Hn & _). rewrite Ht, Hn.
  assert (Hf : forall f,
            NoDup (map fst (filter f (timers s))) /\
            Forall (fun h => h < next_handle s) (map fst (filter f (timers s)))).
  { intros f. split; [now apply NoDup_handles_filter|].
    rewrite Forall_forall in *. intros h Hin. apply Hlt.
    eapply handles_filter; eauto. }
  destruct ev as [e| |d|r|w|dt]; cbn [is_start]; rewrite ?Nat.add_0_r;
    try (now split).
  - set (old := if sub_hidden s && is_done_hidden (EvAnimation e)
                then filter (fun p => negb (is_handle (_closeFallbackTimeout s) p))
                       (timers s)
                else timers s).
    assert (Hold : NoDup (map fst old) /\
                   Forall (fun h => h < next_handle s) (map fst old)).
    { unfold old. destruct (sub_hidden s && _); [apply Hf | now split]. }
    destruct Hold as (Ond & Olt).
    destruct (phaseName e =? "start").
    + rewrite map_app. unfold new_timers. rewrite map_map. simpl.
      rewrite map_id. split.
      * apply NoDup_app; auto; [apply seq_NoDup|].
        intros h Hin Hseq. apply in_seq in Hseq.
        rewrite Forall_forall in Olt. specialize (Olt h Hin). lia.
      * apply Forall_app. split.
        -- eapply Forall_impl; [|exact Olt]. simpl. intros; lia.
        -- rewrite Forall_forall. intros h Hseq. apply in_seq in Hseq. lia.
    + rewrite app_nil_r, Nat.add_0_r. now split.
  - apply Hf.
Qed.

Lemma run_handles (tr : list Event) (s : State) :
  NoDup (handles s) -> Forall (fun h => h < next_handle s) (handles s) ->
  NoDup (handles (final s tr)) /\
  Forall (fun h => h < next_handle (final s tr)) (handles (final s tr)).
Proof.
  revert s; induction tr as [|ev tr IH]; intros s Hnd Hlt.
  - now rewrite final_nil.
  - rewrite final_cons.
    destruct (step_handles s ev Hnd Hlt) as (H1 & H2). now apply IH.
Qed.

(** X10. The pending timers always have distinct handles, and the instance
    keeps one handle only: at any point of a run from construction, a
    done/hidden event cancels at most one pending timer, so of several
    timers armed by one start event all but one stay pending. *)
Theorem done_hidden_clears_at_most_one
  (cfg : option bool) (tr : list Event) (e : AnimationEvent) :
  NoDup (handles (final (construct cfg) tr)) /\
  List.length (timers (final (construct cfg) tr)) <=
    S (List.length (timers (fst (step (final (construct cfg) tr)
                                   (EvAnimation e))))).
Proof.
  destruct (run_handles tr (construct cfg)) as (Hnd & _);
    [constructor | constructor |].
  split; [exact Hnd|].
  destruct (step_timers (final (construct cfg) tr) (EvAnimation e))
    as (Ht & _).
  rewrite Ht, List.length_app.
  pose proof (clear_at_most_one
                (_closeFallbackTimeout (final (construct cfg) tr))
                (timers (final (construct cfg) tr)) Hnd) as Hc.
  destruct (sub_hidden _ && _); lia.
Qed.

End BottomSheetRef.

(** ** Examples *)



(** C2: two [dismiss] calls before the detachment, two [exit()] calls; a
    third call after the detachment, with a subject whose [complete()]
    closes it, does nothing. *)
Lemma dismiss_repeats_until_closed_witness :
  count is_exit
    (ops true (construct None) [EvDismiss (Some 1); EvDismiss (Some 2)]) = 2 /\
  dismiss (Some 3)
    (final true (construct None) [EvDismiss (Some 1); EvDetach]) =
  (final true (construct None) [EvDismiss (Some 1); EvDetach], []).
Proof.
  split.
  - exact (proj1 (dismiss_repeats_until_closed true None
                    [EvDismiss (Some 1); EvDismiss (Some 2)] (Some 3))
             eq_refl).
  - exact (proj2 (proj2 (dismiss_repeats_until_closed true None
                           [EvDismiss (Some 1); EvDetach] (Some 3)))
             eq_refl).
Defined.

(** C2 as stated fails: a second [dismiss] call gives a second [exit()]
    call, and after a start event a second timer and a second disposal. *)
Lemma dismiss_twice_counterexample :
  count is_exit (ops true (construct None) [EvDismiss (Some 1)]) = 1 /\
  count is_exit
    (ops true (construct None) [EvDismiss (Some 1); EvDismiss (Some 1)]) = 2 /\
  count is_dispose
    (ops true (construct None)
       [EvDismiss (Some 1); EvAnimation (exit_start 200); EvElapse 300]) = 1 /\
  count is_dispose
    (ops true (construct None)
       [EvDismiss (Some 1); EvDismiss (Some 1);
        EvAnimation (exit_start 200); EvElapse 300]) = 2.
Proof. repeat split; reflexivity. Qed.

(** C3: a backdrop click dismisses, the exit animation of 200 ms starts, no
    done/hidden event: disposed once when 300 ms have passed. *)
Lemma fallback_timer_disposes_witness :
  snd (step (R := nat) true
         (final true (final true (construct None) [EvAnimation (enter_done 200)])
            (EvDom MouseClick :: [EvElapse 10]))
         (EvAnimation (exit_start 200))) =
    [OpSetTimeout 1 300; OpDetachBackdrop] /\
  count is_dispose
    (ops (R := nat) true
       (final true (construct None) [EvAnimation (enter_done 200)])
       (EvDom MouseClick :: [EvElapse 10] ++
        EvAnimation (exit_start 200) ::
        [EvElapse 100; EvElapse 200; EvDetach])) = 1.
Proof.
  pose proof (fallback_timer_disposes (R := nat) true None
                [EvAnimation (enter_done 200)] [EvElapse 10]
                [EvElapse 100; EvElapse 200; EvDetach]
                (EvDom MouseClick) None (exit_start 200)
                eq_refl eq_refl eq_refl eq_refl eq_refl eq_refl) as H.
  split; [exact (proj1 H) | exact (proj2 (proj2 H))].
Defined.

(** C3 as stated fails: after two [dismiss] calls the start event arms two
    timers, and with no done/hidden event both dispose when 300 ms have
    passed, whatever the subject's [closed] does. *)
Lemma fallback_disposes_twice_counterexample :
  count is_set_timeout
    (ops true (construct None)
       [EvDismiss (Some 1); EvDismiss (Some 2);
        EvAnimation (exit_start 200); EvElapse 300]) = 2 /\
  count is_dispose
    (ops true (construct None)
       [EvDismiss (Some 1); EvDismiss (Some 2);
        EvAnimation (exit_start 200); EvElapse 300]) = 2 /\
  count is_dispose
    (ops false (construct None)
       [EvDismiss (Some 1); EvDismiss (Some 2);
        EvAnimation (exit_start 200); EvElapse 300]) = 2.
Proof. repeat split; reflexivity. Qed.

(** C4: the payload is the argument of the latest call. *)
Lemma afterDismissed_emits_result_once_witness :
  count is_dismissed_next
    (ops true (construct None)
       ([EvDismiss (Some 1); EvDismiss (Some 2)] ++ EvDetach :: [EvDetach]))
    = 1 /\
  snd (step true
         (final true (construct None) [EvDismiss (Some 1); EvDismiss (Some 2)])
         EvDetach) =
    [OpDismissedNext (Some 2); OpDismissedComplete].
Proof.
  pose proof (afterDismissed_emits_result_once true None
                ([EvDismiss (Some 1); EvDismiss (Some 2)] ++
                 EvDetach :: [EvDetach])) as H.
  split; [exact (proj1 H)|].
  exact (proj2 (proj2 H [EvDismiss (Some 1); EvDismiss (Some 2)]
                  EvDetach [EvDetach] eq_refl) eq_refl eq_refl).
Defined.

(** C5: a [dismiss] call stores its argument and then calls [exit()]. *)
Lemma result_written_by_each_dismiss_witness :
  _result (fst (step true (construct None) (EvDismiss (Some 3)))) = Some 3.
Proof.
  exact (proj1 (proj1 (proj2 (result_written_by_each_dismiss true
                                (construct None) (EvDismiss (Some 3))))
                  (Some 3) eq_refl eq_refl)).
Defined.

(** C5 as stated fails: the second call writes [_result] again. *)
Lemma result_overwritten_counterexample :
  count is_store_result
    (ops true (construct None) [EvDismiss (Some 1); EvDismiss (Some 2)]) = 2 /\
  _result (final true (construct None) [EvDismiss (Some 1)]) = Some 1 /\
  _result (final true (construct None)
             [EvDismiss (Some 1); EvDismiss (Some 2)]) = Some 2.
Proof. repeat split; reflexivity. Qed.

(** C6: the second done/visible event does not emit again. *)
Lemma afterOpened_emits_once_witness :
  count is_opened_next
    (ops (R := nat) true (construct None)
       [EvAnimation (enter_start 200); EvAnimation (enter_done 200);
        EvAnimation (enter_done 200)]) = 1.
Proof.
  exact (proj1 (afterOpened_emits_once true None
                  [EvAnimation (enter_start 200); EvAnimation (enter_done 200);
                   EvAnimation (enter_done 200)])).
Defined.

(** C7: Escape dismisses when closing is allowed, is ignored when it is not,
    and Shift+Escape is ignored. *)
Lemma close_request_dismisses_iff_allowed_witness :
  step (R := nat) true (construct None) (EvDom (KeyDown escape_key)) =
    (fst (dismiss None (construct None)),
     OpPreventDefault :: snd (dismiss None (construct None))) /\
  step (R := nat) true (construct (Some true)) (EvDom (KeyDown escape_key)) =
    (construct (Some true), []) /\
  step (R := nat) true (construct None) (EvDom (KeyDown shift_escape_key)) =
    (construct None, []).
Proof.
  split; [|split].
  - exact (proj2 (proj1 (proj2 (proj1
             (close_request_dismisses_iff_allowed true (construct None)
                (KeyDown escape_key)) eq_refl)) eq_refl)).
  - exact (proj1 (proj2 (proj2 (proj1
             (close_request_dismisses_iff_allowed true (construct (Some true))
                (KeyDown escape_key)) eq_refl)) eq_refl)).
  - exact (proj2 (close_request_dismisses_iff_allowed true (construct None)
                    (KeyDown shift_escape_key))
             shift_escape_key eq_refl eq_refl).
Defined.

(** C8: with closing disabled, [dismiss] and the exit animation that follows
    perform the same operations. *)
Lemma dismiss_ignores_disableClose_witness :
  ops true (set_disableClose (Some true) (construct None))
    (EvDismiss (Some 1) ::
     [EvAnimation (exit_start 200); EvElapse 150; EvAnimation (exit_done 200)])
  = ops true (construct None)
      (EvDismiss (Some 1) ::
       [EvAnimation (exit_start 200); EvElapse 150;
        EvAnimation (exit_done 200)]).
Proof.
  exact (proj1 (proj2 (dismiss_ignores_disableClose true (Some true)
                         (construct None) (Some 1)
                         [EvAnimation (exit_start 200); EvElapse 150;
                          EvAnimation (exit_done 200)] eq_refl))).
Defined.

(** C9: the container never starts the exit animation; nothing is armed or
    disposed, not even by a second [dismiss]. *)
Lemma no_start_event_no_timer_witness :
  count is_dispose
    (ops true
       (final true (construct None)
          ([EvAnimation (enter_start 200); EvAnimation (enter_done 200)] ++
           [EvDismiss (Some 1)]))
       [EvElapse 1000; EvDetach; EvDismiss None; EvElapse 1000]) = 0.
Proof.
  exact (proj1 (proj2 (proj2 (proj2
           (no_start_event_no_timer true None
              [EvAnimation (enter_start 200); EvAnimation (enter_done 200)]
              [EvElapse 1000; EvDetach; EvDismiss None; EvElapse 1000]
              (EvDismiss (Some 1)) (Some 1)
              eq_refl eq_refl eq_refl eq_refl))))).
Defined.

(** C10: with [disableClose] undefined a backdrop click dismisses. *)
Lemma disableClose_undefined_allows_close_witness :
  disableClose (construct (R := nat) None) = None /\
  snd (step (R := nat) true (set_disableClose None (construct (Some true)))
         (EvDom MouseClick)) =
    [OpPreventDefault; OpSubscribeStart; OpStoreResult None; OpExit].
Proof.
  pose proof (disableClose_undefined_allows_close (R := nat) true
                (construct (Some true)) MouseClick) as H.
  split; [exact (proj1 H None)|].
  exact (f_equal snd (proj2 (proj2 (proj2 H)) eq_refl)).
Defined.

(** X1: Shift+Escape between a [dismiss] call and the start event changes
    nothing of the run. *)
Lemma inert_keydown_ignored_witness :
  run true (construct None)
    ([EvDismiss (Some 1)] ++
     EvDom (KeyDown shift_escape_key) :: [EvAnimation (exit_start 200)]) =
  run true (construct None)
    ([EvDismiss (Some 1)] ++ [EvAnimation (exit_start 200)]).
Proof.
  exact (proj2 (inert_keydown_ignored true (construct None)
                  [EvDismiss (Some 1)] [EvAnimation (exit_start 200)]
                  shift_escape_key eq_refl)).
Defined.

(** X2: a done event towards the state "void" is ignored. *)
Lemma unmatched_animation_ignored_witness :
  step (R := nat) true (construct None)
    (EvAnimation (mkAnimationEvent "done" "void" 200)) =
  (construct None, []).
Proof.
  exact (proj1 (unmatched_animation_ignored true (construct None) [] []
                  (mkAnimationEvent "done" "void" 200) eq_refl)).
Defined.

(** X3: a second done/hidden event does not dispose again. *)
Lemma repeated_notification_ignored_witness :
  snd (step true
         (final true (construct None)
            [EvDismiss (Some 1); EvAnimation (exit_done 200)])
         (EvAnimation (exit_done 200))) = [].
Proof.
  exact (f_equal snd
           (repeated_notification_ignored true None
              [EvDismiss (Some 1); EvAnimation (exit_done 200)]
              (EvAnimation (exit_done 200)) eq_refl)).
Defined.

(** X4: a backdrop click after the detachment, with a subject that
    [complete()] closes and with one that it does not. *)
Lemma close_request_after_detachment_witness :
  snd (step (R := nat) true (final true (construct None) [EvDetach])
         (EvDom MouseClick)) = [OpPreventDefault] /\
  snd (step (R := nat) false (final false (construct None) [EvDetach])
         (EvDom MouseClick)) =
    [OpPreventDefault; OpSubscribeStart; OpStoreResult None; OpExit].
Proof.
  split.
  - exact (close_request_after_detachment true None [EvDetach] MouseClick
             eq_refl eq_refl eq_refl).
  - exact (close_request_after_detachment false None [EvDetach] MouseClick
             eq_refl eq_refl eq_refl).
Defined.

(** X8: a [dismiss] call and a backdrop click before the start event: two
    timers, the handle of the second kept. *)
Lemma start_arms_one_timer_per_call_witness :
  snd (step true
         (final true (construct None) [EvDismiss (Some 1); EvDom MouseClick])
         (EvAnimation (exit_start 200))) =
    [OpSetTimeout 1 300; OpDetachBackdrop;
     OpSetTimeout 2 300; OpDetachBackdrop] /\
  _closeFallbackTimeout
    (fst (step true
            (final true (construct None)
               [EvDismiss (Some 1); EvDom MouseClick])
            (EvAnimation (exit_start 200)))) = Some 2.
Proof.
  pose proof (start_arms_one_timer_per_call true None
                [EvDismiss (Some 1); EvDom MouseClick] (exit_start 200)
                eq_refl eq_refl eq_refl) as H.
  split; [exact (proj1 H) | exact (proj2 (proj2 (proj2 H)))].
Defined.
